(** * Furnace flow controller: drivers and process controller

    A shallow embedding of [mks647b.py] (MKS 647B mass-flow controller
    driver), [up150.py] (Yokogawa UP150 temperature controller driver) and
    the process-control part of [main.py], followed by the properties of the
    specification that are stated about them.

    Conventions of the embedding.
    - Python [int] is [Z]; [//] is [Z.div] and [%] is [Z.modulo] (both floor
      towards minus infinity for a positive divisor, as in Python).
    - Python [float] is idealised as an exact rational ([Q]): the scaling
      formulas are embedded without binary rounding error.  [round] is
      round-half-to-even on that exact value.
    - A serial instrument is a deterministic function from the commands it has
      received so far to its reply to the latest one; the driver state is the
      list of commands transmitted.  Theorems quantify over that function, so
      they hold for every behaviour of the instrument.
    - A Python computation that mutates [self] and may raise is a function
      [S -> result A * S]: the state reached is kept when an exception is
      raised, as Python keeps the mutations done before a [raise].
    - [time.sleep], [print] to a terminal that only echoes debug text, and
      the Qt layout calls have no effect on the links or on the run state and
      are left out; the messages printed by the controller are kept in a
      console log. *)

From Stdlib Require Import ZArith QArith Qround Qabs String Ascii List Bool Lia Lqa Qfield.
Import ListNotations.

Local Open Scope Z_scope.

(** ** Python values and exceptions *)

(** The six error conditions of the 647B and the fallback, as raised by
    [MKS647B.iterate_query]. *)
Inductive MfcFault : Type :=
| ChannelError
| UnknownCommand
| SyntaxError
| InvalidExpression
| InvalidValue
| AutozeroError
| UnknownError.

Inductive exn : Type :=
| AssertionError
| IndexError
| KeyError (key : string)
| ValueError
| TypeError
| AttributeError
| ZeroDivisionError
| JSONDecodeError
| MfcException (fault : MfcFault).

Inductive result (A : Type) : Type :=
| Ok (a : A)
| Raise (e : exn).
Arguments Ok {A} a.
Arguments Raise {A} e.

Definition is_ok {A} (r : result A) : bool :=
  match r with Ok _ => true | Raise _ => false end.

(** State-and-exception computations. *)
Definition M (S A : Type) : Type := S -> result A * S.

Definition ret {S A} (a : A) : M S A := fun s => (Ok a, s).

Definition raise {S A} (e : exn) : M S A := fun s => (Raise e, s).

Definition bind {S A B} (c : M S A) (k : A -> M S B) : M S B :=
  fun s => match c s with
           | (Ok a, s') => k a s'
           | (Raise e, s') => (Raise e, s')
           end.

Declare Scope py_scope.
Delimit Scope py_scope with py.
Notation "x <- c ;; k" := (bind c (fun x => k))
  (at level 61, c at next level, right associativity) : py_scope.
Notation "c ;; k" := (bind c (fun _ => k))
  (at level 61, right associativity) : py_scope.

(** [assert cond] *)
Definition py_assert {S} (cond : bool) : M S unit :=
  if cond then ret tt else raise AssertionError.

(** A pure step that may raise. *)
Definition of_result {S A} (r : result A) : M S A := fun s => (r, s).

Definition of_option {S A} (e : exn) (o : option A) : M S A :=
  match o with Some a => ret a | None => raise e end.

(** [try: c except Exception as e: h e] *)
Definition try_except {S A} (c : M S A) (h : exn -> M S A) : M S A :=
  fun s => match c s with
           | (Ok a, s') => (Ok a, s')
           | (Raise e, s') => h e s'
           end.

(** [self.attr] and [self.attr = ...] *)
Definition gets {S A} (attr : S -> A) : M S A := fun s => (Ok (attr s), s).

Definition modify {S} (f : S -> S) : M S unit := fun s => (Ok tt, f s).

(** [for i in items: body i] *)
Fixpoint for_each {S A} (items : list A) (body : A -> M S unit) : M S unit :=
  match items with
  | [] => ret tt
  | i :: rest => bind (body i) (fun _ => for_each rest body)
  end.

(** [range(lo, hi)] *)
Definition py_range (lo hi : Z) : list Z :=
  map (fun k => lo + Z.of_nat k) (seq 0 (Z.to_nat (hi - lo))).

(** [enumerate(items)] *)
Definition enumerate {A} (items : list A) : list (Z * A) :=
  combine (py_range 0 (Z.of_nat (length items))) items.

(** ** Python strings *)

Module Py.

(** Characters removed by [str.strip()] and separating [str.split()] fields
    in an ASCII string: TAB, LF, VT, FF, CR, FS, GS, RS, US and space. *)
Definition is_space (c : ascii) : bool :=
  let n := N_of_ascii c in
  ((9 <=? n) && (n <=? 13) || (28 <=? n) && (n <=? 32))%N.

Fixpoint lstrip (s : string) : string :=
  match s with
  | String c r => if is_space c then lstrip r else s
  | EmptyString => EmptyString
  end.

Fixpoint rstrip (s : string) : string :=
  match s with
  | String c r =>
      match rstrip r with
      | EmptyString => if is_space c then EmptyString else String c EmptyString
      | r' => String c r'
      end
  | EmptyString => EmptyString
  end.

(** [s.strip()] *)
Definition strip (s : string) : string := rstrip (lstrip s).

(** [s.split()]: the maximal runs of non-space characters. *)
Fixpoint split_acc (s : string) (cur : string) : list string :=
  match s with
  | EmptyString => match cur with EmptyString => [] | _ => [cur] end
  | String c r =>
      if is_space c
      then match cur with
           | EmptyString => split_acc r EmptyString
           | _ => cur :: split_acc r EmptyString
           end
      else split_acc r (cur ++ String c EmptyString)
  end.

Definition split (s : string) : list string := split_acc s EmptyString.

(** [s[i]], [None] standing for [IndexError] (non-negative [i] only). *)
Definition index (s : string) (i : nat) : option ascii := String.get i s.

(** [s[lo:hi]] for non-negative bounds: never raises, clips at the end. *)
Definition slice (s : string) (lo hi : nat) : string :=
  String.substring lo (hi - lo) s.

(** *** Formatting integers *)

Definition digit_char (d : N) : ascii :=
  if (d <? 10)%N then ascii_of_N (48 + d) else ascii_of_N (55 + d).

Fixpoint digits_fuel (fuel : nat) (base n : N) (acc : string) : string :=
  match fuel with
  | O => acc
  | S fuel' =>
      let acc' := String (digit_char (n mod base)) acc in
      if (n / base =? 0)%N then acc' else digits_fuel fuel' base (n / base) acc'
  end.

(** The digits of [n] in [base] (10 or 16, upper-case), most significant
    first; ["0"] for zero. *)
Definition digits (base n : N) : string :=
  digits_fuel (S (N.to_nat (N.log2 n))) base n EmptyString.

Fixpoint zeros (k : nat) : string :=
  match k with O => EmptyString | S k' => String "0" (zeros k') end.

(** [format(z, '0<width><d|X>')]: sign first, then zero padding up to
    [width] characters in all. *)
Definition fmt_padded (base : N) (width : nat) (z : Z) : string :=
  let body := digits base (Z.abs_N z) in
  if (z <? 0)%Z
  then String "-" (zeros (width - 1 - String.length body) ++ body)
  else zeros (width - String.length body) ++ body.

(** [f'{z}'] *)
Definition str (z : Z) : string := fmt_padded 10 0 z.
(** [f'{z:02d}'] *)
Definition fmt_02d (z : Z) : string := fmt_padded 10 2 z.
(** [f'{z:04d}'] *)
Definition fmt_04d (z : Z) : string := fmt_padded 10 4 z.
(** [f'{z:04X}'] *)
Definition fmt_04X (z : Z) : string := fmt_padded 16 4 z.

(** *** Parsing numbers

    [int(s)], [int(s, 16)] and [float(s)] on the replies of the instruments:
    surrounding white space, an optional sign and digits (with one optional
    decimal point for [float], an optional [0x] prefix in base 16).  [None]
    is [ValueError].  Python's further spellings (digit-group underscores,
    exponents, [inf], [nan]) never occur in a reply and are not accepted
    here. *)

Definition digit_value (base : N) (c : ascii) : option N :=
  let n := N_of_ascii c in
  let v := (if (48 <=? n) && (n <=? 57) then Some (n - 48)
            else if (65 <=? n) && (n <=? 70) then Some (n - 55)
            else if (97 <=? n) && (n <=? 102) then Some (n - 87)
            else None)%N in
  match v with
  | Some d => if (d <? base)%N then Some d else None
  | None => None
  end.

Fixpoint parse_digits (base : N) (s : string) (acc : N) : option N :=
  match s with
  | EmptyString => Some acc
  | String c r =>
      match digit_value base c with
      | Some d => parse_digits base r (acc * base + d)%N
      | None => None
      end
  end.

(** A non-empty run of digits. *)
Definition parse_nat (base : N) (s : string) : option N :=
  match s with
  | EmptyString => None
  | _ => parse_digits base s 0%N
  end.

Definition split_sign (s : string) : bool * string :=
  match s with
  | String "-" r => (true, r)
  | String "+" r => (false, r)
  | _ => (false, s)
  end.

Definition apply_sign (neg : bool) (n : N) : Z :=
  if neg then - Z.of_N n else Z.of_N n.

(** [int(s)] *)
Definition int (s : string) : option Z :=
  let '(neg, body) := split_sign (strip s) in
  option_map (apply_sign neg) (parse_nat 10 body).

Definition drop_0x (s : string) : string :=
  match s with
  | String "0" (String "x" r) => r
  | String "0" (String "X" r) => r
  | _ => s
  end.

(** [int(s, 16)] *)
Definition int16 (s : string) : option Z :=
  let '(neg, body) := split_sign (strip s) in
  option_map (apply_sign neg) (parse_nat 16 (drop_0x body)).

Fixpoint split_point (s : string) (cur : string) : string * option string :=
  match s with
  | EmptyString => (cur, None)
  | String "." r => (cur, Some r)
  | String c r => split_point r (cur ++ String c EmptyString)
  end.

Fixpoint pow10 (k : nat) : positive :=
  match k with O => 1%positive | S k' => (10 * pow10 k')%positive end.

(** [float(s)] *)
Definition float (s : string) : option Q :=
  let '(neg, body) := split_sign (strip s) in
  let '(ip, fp) := split_point body EmptyString in
  let frac := match fp with Some f => f | None => EmptyString end in
  match ip, frac with
  | EmptyString, EmptyString => None
  | _, _ =>
      match parse_digits 10 ip 0%N, parse_digits 10 frac 0%N with
      | Some i, Some f =>
          let q := (inject_Z (Z.of_N i)
                    + (Z.of_N f # pow10 (String.length frac)))%Q in
          Some (if neg then (- q)%Q else q)
      | _, _ => None
      end
  end.

(** *** Rounding *)

(** [round(x)]: the nearest integer, ties to the even one. *)
Definition round (x : Q) : Z :=
  let f := Qfloor x in
  match Qcompare (x - inject_Z f) (1 # 2) with
  | Lt => f
  | Gt => f + 1
  | Eq => if Z.even f then f else f + 1
  end.

(** [round(x, 3)]: the nearest multiple of 1/1000, ties to even. *)
Definition round3 (x : Q) : Q := round (x * 1000) # 1000.

(** [f'{x:.3f}']: three decimals, the sign kept for a negative [x]. *)
Definition fmt_3f (x : Q) : string :=
  let r := round (Qabs x * 1000) in
  let body := (str (r / 1000) ++ String "." (fmt_padded 10 3 (r mod 1000)))%string in
  if Qle_bool 0 x then body else String "-" body.

(** [a / b] on floats *)
Definition truediv (a b : Q) : result Q :=
  if Qeq_bool b 0 then Raise ZeroDivisionError else Ok (a / b)%Q.

End Py.

(** Characters of the furnace frames that string literals cannot spell. *)
Definition STX : string := String "002"%char EmptyString.
Definition ETX : string := String "003"%char EmptyString.
Definition CR : string := String "013"%char EmptyString.

(** Python dictionaries with insertion order: [d[k]]. *)
Fixpoint dict_get {K V} (eqb : K -> K -> bool) (d : list (K * V)) (k : K)
  : option V :=
  match d with
  | [] => None
  | (k', v) :: d' => if eqb k k' then Some v else dict_get eqb d' k
  end.

(** ** [mks647b.py]: the MKS 647B flow controller driver *)

Module Mks647b.

Local Open Scope string_scope.
Local Open Scope Z_scope.
Local Open Scope py_scope.

(** [self.RANGE_DICT], in the order of the source. *)
Definition RANGE_DICT : list (string * Z) :=
  [ ("1 SCCM", 0); ("2 SCCM", 1); ("5 SCCM", 2); ("10 SCCM", 3);
    ("20 SCCM", 4); ("50 SCCM", 5); ("100 SCCM", 6); ("200 SCCM", 7);
    ("500 SCCM", 8);
    ("1 SLM", 9); ("2 SLM", 10); ("5 SLM", 11); ("10 SLM", 12);
    ("20 SLM", 13); ("50 SLM", 14); ("100 SLM", 15); ("200 SLM", 16);
    ("400 SLM", 17); ("500 SLM", 18);
    ("1 SCMM", 19);
    ("1 SCFH", 20); ("2 SCFH", 21); ("5 SCFH", 22); ("10 SCFH", 23);
    ("20 SCFH", 24); ("50 SCFH", 25); ("100 SCFH", 26); ("200 SCFH", 27);
    ("500 SCFH", 28);
    ("1 SCFM", 29); ("2 SCFM", 30); ("5 SCFM", 31); ("10 SCFM", 32);
    ("20 SCFM", 33); ("50 SCFM", 34); ("100 SCFM", 35); ("200 SCFM", 36);
    ("500 SCFM", 37);
    ("30 SLM", 38); ("300 SLM", 39) ]%Z.

(** [{v: k for k, v in self.RANGE_DICT.items()}] *)
Definition REVERSE_RANGE_DICT : list (Z * string) :=
  map (fun kv => (snd kv, fst kv)) RANGE_DICT.

(** The driver object: the behaviour of the instrument behind [self.inst]
    and the commands transmitted to it so far. *)
Record MKS647B : Type := {
  inst_respond : list string -> string;
  inst_sent : list string
}.

(** The driver after [cmds] more commands went out. *)
Definition transmit (cmds : list string) (m : MKS647B) : MKS647B :=
  {| inst_respond := inst_respond m; inst_sent := inst_sent m ++ cmds |}.

(** [self.inst.query(command)] *)
Definition inst_query (command : string) : M MKS647B string :=
  fun m => let m' := transmit [command] m in
           (Ok (inst_respond m' (inst_sent m')), m').

Definition MAX_COUNT : nat := 5.

(** The classification of the second character of an error reply. *)
Definition fault_of_code (c : ascii) : MfcFault :=
  if Ascii.eqb c "0" then ChannelError
  else if Ascii.eqb c "1" then UnknownCommand
  else if Ascii.eqb c "2" then SyntaxError
  else if Ascii.eqb c "3" then InvalidExpression
  else if Ascii.eqb c "4" then InvalidValue
  else if Ascii.eqb c "5" then AutozeroError
  else UnknownError.

(** The [if val[1] == ...: raise ...] chain after the loop. *)
Definition decode_error (val : string) : result string :=
  match Py.index val 1 with
  | None => Raise IndexError
  | Some c => Raise (MfcException (fault_of_code c))
  end.

(** The [for i in range(MAX_COUNT)] loop with [count] iterations left; [val]
    is the value of the variable [val] on entry. *)
Fixpoint iterate_query_loop (count : nat) (command : string) (val : string)
  : M MKS647B string :=
  match count with
  | O => of_result (decode_error val)
  | S count' =>
      val' <- inst_query command ;;
      match Py.index val' 0 with
      | None => raise IndexError
      | Some c =>
          if Ascii.eqb c "E"
          then iterate_query_loop count' command val'
          else ret val'
      end
  end.

Definition iterate_query (command : string) : M MKS647B string :=
  iterate_query_loop MAX_COUNT command "".

Definition open_valve (channel : Z) : M MKS647B unit :=
  py_assert ((channel >=? 0) && (channel <=? 8)) ;;
  _ <- iterate_query ("ON " ++ Py.str channel) ;;
  ret tt.

Definition close_valve (channel : Z) : M MKS647B unit :=
  py_assert ((channel >=? 0) && (channel <=? 8)) ;;
  _ <- iterate_query ("OF " ++ Py.str channel) ;;
  ret tt.

Definition set_gas_menu (gas_set : Z) : M MKS647B unit :=
  py_assert ((gas_set >=? 0) && (gas_set <=? 5)) ;;
  _ <- iterate_query ("GM " ++ Py.str gas_set) ;;
  ret tt.

Definition get_gas_menu : M MKS647B Z :=
  val <- iterate_query "GM R" ;;
  of_option ValueError (Py.int (Py.strip val)).

Definition get_range (channel : Z) : M MKS647B Z :=
  py_assert ((channel >=? 1) && (channel <=? 8)) ;;
  val <- iterate_query ("RA " ++ Py.str channel ++ " R") ;;
  of_option ValueError (Py.int (Py.strip val)).

Definition get_gas_correction_factor (channel : Z) : M MKS647B Q :=
  py_assert ((channel >=? 1) && (channel <=? 8)) ;;
  val <- iterate_query ("GC " ++ Py.str channel ++ " R") ;;
  v <- of_option ValueError (Py.float (Py.strip val)) ;;
  ret (v / 100)%Q.

(** [float(self.REVERSE_RANGE_DICT[code].split()[0])] *)
Definition range_factor_of_code (code : Z) : result Q :=
  match dict_get Z.eqb REVERSE_RANGE_DICT code with
  | None => Raise (KeyError (Py.str code))
  | Some text =>
      match Py.split text with
      | [] => Raise IndexError
      | first :: _ =>
          match Py.float first with
          | None => Raise ValueError
          | Some v => Ok v
          end
      end
  end.

(** The scaling between engineering units and the instrument's counts:
    [round(set_point / range_factor / factor * 1000.0)] on the way out,
    [round(value * factor / 1000.0, 3) * range_factor] on the way back. *)
Definition to_device (set_point range_factor factor : Q) : Z :=
  Py.round (set_point / range_factor / factor * 1000).

Definition from_device (value range_factor factor : Q) : Q :=
  (Py.round3 (value * factor / 1000) * range_factor)%Q.

(** [round(set_point / range_factor / <correction factor> * 1000.0)], the
    correction factor being queried after the first division. *)
Definition scaled_setpoint (channel : Z) (set_point range_factor : Q)
  : M MKS647B Z :=
  q <- of_result (Py.truediv set_point range_factor) ;;
  cf <- get_gas_correction_factor channel ;;
  q' <- of_result (Py.truediv q cf) ;;
  ret (Py.round (q' * 1000)).

Definition set_gas_setpoint (channel gas_set : Z) (set_point : Q)
  : M MKS647B unit :=
  code <- get_range channel ;;
  range_factor <- of_result (range_factor_of_code code) ;;
  x <- scaled_setpoint channel set_point range_factor ;;
  py_assert ((channel >=? 1) && (channel <=? 8)) ;;
  py_assert ((gas_set >=? 1) && (gas_set <=? 5)) ;;
  py_assert ((x >=? 0) && (x <=? 1100)) ;;
  _ <- iterate_query ("GP " ++ Py.str channel ++ " " ++ Py.str gas_set
                      ++ " " ++ Py.fmt_04d x) ;;
  ret tt.

Definition get_gas_setpoint (channel gas_set : Z) : M MKS647B Q :=
  py_assert ((channel >=? 1) && (channel <=? 8)) ;;
  py_assert ((gas_set >=? 1) && (gas_set <=? 5)) ;;
  code <- get_range channel ;;
  range_factor <- of_result (range_factor_of_code code) ;;
  val <- iterate_query ("GP " ++ Py.str channel ++ " " ++ Py.str gas_set
                        ++ " R") ;;
  v <- of_option ValueError (Py.float (Py.strip val)) ;;
  cf <- get_gas_correction_factor channel ;;
  ret (from_device v range_factor cf).

Definition set_flow_setpoint (channel : Z) (set_point : Q) : M MKS647B unit :=
  code <- get_range channel ;;
  range_factor <- of_result (range_factor_of_code code) ;;
  x <- scaled_setpoint channel set_point range_factor ;;
  py_assert ((channel >=? 1) && (channel <=? 8)) ;;
  py_assert ((x >=? 0) && (x <=? 1100)) ;;
  _ <- iterate_query ("FS " ++ Py.str channel ++ " " ++ Py.fmt_04d x) ;;
  ret tt.

Definition get_flow_setpoint (channel : Z) : M MKS647B Q :=
  py_assert ((channel >=? 1) && (channel <=? 8)) ;;
  code <- get_range channel ;;
  range_factor <- of_result (range_factor_of_code code) ;;
  val <- iterate_query ("FS " ++ Py.str channel ++ " R") ;;
  v <- of_option ValueError (Py.float (Py.strip val)) ;;
  cf <- get_gas_correction_factor channel ;;
  ret (from_device v range_factor cf).

Definition get_actual_flow (channel : Z) : M MKS647B Q :=
  py_assert ((channel >=? 1) && (channel <=? 8)) ;;
  code <- get_range channel ;;
  range_factor <- of_result (range_factor_of_code code) ;;
  val <- iterate_query ("FL " ++ Py.str channel) ;;
  v <- of_option ValueError (Py.int (Py.strip val)) ;;
  ret (inject_Z v / 1000 * range_factor)%Q.

Definition set_range (channel range_value : Z) (range_unit : string)
  : M MKS647B unit :=
  py_assert ((channel >=? 1) && (channel <=? 8)) ;;
  let key := Py.str range_value ++ " " ++ range_unit in
  range_code <- of_option (KeyError key) (dict_get String.eqb RANGE_DICT key) ;;
  py_assert ((range_code >=? 0) && (range_code <=? 39)) ;;
  _ <- iterate_query ("RA " ++ Py.str channel ++ " " ++ Py.fmt_02d range_code) ;;
  ret tt.

Definition get_mode (channel : Z) : M MKS647B string :=
  py_assert ((channel >=? 1) && (channel <=? 8)) ;;
  val <- iterate_query ("MO " ++ Py.str channel ++ " R") ;;
  ret (Py.strip val).

Definition get_id : M MKS647B string :=
  val <- iterate_query "ID" ;;
  ret (Py.strip val).

(** [close]: the connection itself is outside the model. *)
Definition close : M MKS647B unit := close_valve 0.

(** [MKS647B(range_value=..., range_unit=...)]: the commands of [__init__],
    and the object built on a fresh link to an instrument that behaves as
    [respond]. *)
Definition init_steps (range_value : Z) (range_unit : string)
  : M MKS647B unit :=
  for_each (py_range 0 4) (fun i => set_range (i + 1) range_value range_unit).

Definition init (respond : list string -> string) (range_value : Z)
  (range_unit : string) : result unit * MKS647B :=
  init_steps range_value range_unit
    {| inst_respond := respond; inst_sent := [] |}.

(** The defaults of the constructor's signature. *)
Definition default_range_value : Z := 1.
Definition default_range_unit : string := "SLM".

End Mks647b.

(** ** [up150.py]: the UP150 temperature controller driver *)

Module Up150.

Local Open Scope string_scope.
Local Open Scope Z_scope.
Local Open Scope py_scope.

(** The driver object: the behaviour of the controller behind [self.inst]
    (the content of the receive buffer after the frames written so far) and
    the frames written so far. *)
Record UP150 : Type := {
  link_respond : list string -> string;
  link_sent : list string
}.

Definition written (frames : list string) (f : UP150) : UP150 :=
  {| link_respond := link_respond f; link_sent := link_sent f ++ frames |}.

(** [self.inst.write_raw(cmd)] *)
Definition write_raw (cmd : string) : M UP150 unit :=
  fun f => (Ok tt, written [cmd] f).

(** [self.buffer_read()] *)
Definition buffer_read : M UP150 string :=
  fun f => (Ok (link_respond f (link_sent f)), f).

(** [int(reply[7:11], 16)] *)
Definition reply_value (reply : string) : result Z :=
  match Py.int16 (Py.slice reply 7 11) with
  | Some v => Ok v
  | None => Raise ValueError
  end.

(** The frames of the PC-link protocol, as the methods build them. *)
Definition read_frame (register : string) : string :=
  STX ++ "01010WRDD" ++ register ++ ",01" ++ ETX ++ CR.

Definition write_frame (register : string) (value : string) : string :=
  STX ++ "01010WWRD" ++ register ++ ",01," ++ value ++ ETX ++ CR.

Definition reset_frame : string := write_frame "0121" "0000".
Definition run_frame : string := write_frame "0121" "0001".
Definition start_setpoint_frame (temp : Z) : string :=
  write_frame "0228" (Py.fmt_04X temp).
Definition sp_setpoint_frame (num temp : Z) : string :=
  write_frame ("02" ++ Py.fmt_02d (27 + num * 2)) (Py.fmt_04X temp).
Definition tm_length_frame (num length : Z) : string :=
  write_frame ("02" ++ Py.fmt_02d (28 + num * 2)) (Py.fmt_04X length).

(** Write a read request, then parse the value field of the reply. *)
Definition read_register (frame : string) : M UP150 Z :=
  write_raw frame ;;
  reply <- buffer_read ;;
  of_result (reply_value reply).

Definition get_current_temp : M UP150 Z := read_register (read_frame "0002").
Definition get_current_setpoint : M UP150 Z := read_register (read_frame "0003").
Definition get_segment_time_left : M UP150 Z := read_register (read_frame "0008").
Definition get_segment_number : M UP150 Z := read_register (read_frame "0010").

Definition set_reset : M UP150 string :=
  write_raw reset_frame ;; buffer_read.

Definition set_run : M UP150 string :=
  write_raw run_frame ;; buffer_read.

Definition set_start_setpoint (temp : Z) : M UP150 string :=
  py_assert ((temp >=? 0) && (temp <=? 1200)) ;;
  write_raw (start_setpoint_frame temp) ;; buffer_read.

Definition set_sp_setpoint (num temp : Z) : M UP150 string :=
  py_assert ((num >=? 1) && (num <=? 16)) ;;
  py_assert ((temp >=? 0) && (temp <=? 1200)) ;;
  write_raw (sp_setpoint_frame num temp) ;; buffer_read.

Definition get_sp_setpoint (num : Z) : M UP150 Z :=
  py_assert ((num >=? 1) && (num <=? 16)) ;;
  read_register (read_frame ("02" ++ Py.fmt_02d (27 + num * 2))).

Definition set_tm_length (num length : Z) : M UP150 string :=
  py_assert ((num >=? 1) && (num <=? 16)) ;;
  write_raw (tm_length_frame num length) ;; buffer_read.

Definition get_tm_length (num : Z) : M UP150 Z :=
  py_assert ((num >=? 1) && (num <=? 16)) ;;
  read_register (read_frame ("02" ++ Py.fmt_02d (28 + num * 2))).

Definition clear_sp_tm : M UP150 unit :=
  for_each (py_range 1 17)
    (fun i => _ <- set_sp_setpoint i 0 ;; _ <- set_tm_length i 0 ;; ret tt).

(** The default of [set_start_setpoint]'s signature. *)
Definition default_start_setpoint : Z := 25.

(** [UP150()]: the frames of [__init__], and the object built on a fresh
    link to a controller that behaves as [respond]. *)
Definition init_steps : M UP150 unit :=
  _ <- set_start_setpoint default_start_setpoint ;; clear_sp_tm.

Definition init (respond : list string -> string) : result unit * UP150 :=
  init_steps {| link_respond := respond; link_sent := [] |}.

(** [close]: the connection itself is outside the model. *)
Definition close : M UP150 unit := _ <- set_reset ;; ret tt.

End Up150.

(** ** [main.py]: recipe model and process controller *)

Module Main.

Import Mks647b Up150.

Local Open Scope string_scope.
Local Open Scope Z_scope.
Local Open Scope py_scope.

Definition POST_ANNEAL_FLOW_RATE : Z := 6.

(** *** Stage widgets *)

(** The items of [rangeComboBox]. *)
Definition range_list : list string :=
  [ "1 SCCM"; "2 SCCM"; "5 SCCM"; "10 SCCM"; "20 SCCM"; "50 SCCM";
    "100 SCCM"; "200 SCCM"; "500 SCCM";
    "1 SLM"; "2 SLM"; "5 SLM"; "10 SLM"; "20 SLM"; "50 SLM";
    "100 SLM"; "200 SLM"; "500 SLM";
    "1 SCFH"; "2 SCFH"; "5 SCFH"; "10 SCFH"; "20 SCFH";
    "50 SCFH"; "100 SCFH"; "200 SCFH"; "500 SCFH";
    "1 SCFM"; "2 SCFM"; "5 SCFM"; "10 SCFM"; "20 SCFM"; "50 SCFM";
    "100 SCFM"; "200 SCFM"; "500 SCFM" ].

(** A [StageWidget]: the values held by its spin boxes and combo box
    ([temperatureSpinBox], [rampTimeSpinBox], [holdTimeSpinBox],
    [flowRateSpinBox] with its maximum and suffix, [rangeComboBox]), whether
    the four spin boxes accept input, and the number shown by its label. *)
Record StageWidget : Type := {
  temperature : Z;
  ramp_time : Z;
  hold_time : Z;
  flow_rate : Q;
  flow_maximum : Q;
  flow_suffix : string;
  range_text : string;
  inputs_enabled : bool;
  stage_number : Z
}.

Definition with_temperature (v : Z) (s : StageWidget) : StageWidget :=
  {| temperature := v; ramp_time := ramp_time s; hold_time := hold_time s;
     flow_rate := flow_rate s; flow_maximum := flow_maximum s; flow_suffix
     := flow_suffix s; range_text := range_text s; inputs_enabled :=
     inputs_enabled s; stage_number := stage_number s |}.

Definition with_ramp_time (v : Z) (s : StageWidget) : StageWidget :=
  {| temperature := temperature s; ramp_time := v; hold_time := hold_time s;
     flow_rate := flow_rate s; flow_maximum := flow_maximum s; flow_suffix
     := flow_suffix s; range_text := range_text s; inputs_enabled :=
     inputs_enabled s; stage_number := stage_number s |}.

Definition with_hold_time (v : Z) (s : StageWidget) : StageWidget :=
  {| temperature := temperature s; ramp_time := ramp_time s; hold_time := v;
     flow_rate := flow_rate s; flow_maximum := flow_maximum s; flow_suffix
     := flow_suffix s; range_text := range_text s; inputs_enabled :=
     inputs_enabled s; stage_number := stage_number s |}.

Definition with_flow_rate (v : Q) (s : StageWidget) : StageWidget :=
  {| temperature := temperature s; ramp_time := ramp_time s; hold_time :=
     hold_time s; flow_rate := v; flow_maximum := flow_maximum s;
     flow_suffix := flow_suffix s; range_text := range_text s;
     inputs_enabled := inputs_enabled s; stage_number := stage_number s |}.

Definition with_flow_maximum (v : Q) (s : StageWidget) : StageWidget :=
  {| temperature := temperature s; ramp_time := ramp_time s; hold_time :=
     hold_time s; flow_rate := flow_rate s; flow_maximum := v; flow_suffix
     := flow_suffix s; range_text := range_text s; inputs_enabled :=
     inputs_enabled s; stage_number := stage_number s |}.

Definition with_flow_suffix (v : string) (s : StageWidget) : StageWidget :=
  {| temperature := temperature s; ramp_time := ramp_time s; hold_time :=
     hold_time s; flow_rate := flow_rate s; flow_maximum := flow_maximum s;
     flow_suffix := v; range_text := range_text s; inputs_enabled :=
     inputs_enabled s; stage_number := stage_number s |}.

Definition with_range_text (v : string) (s : StageWidget) : StageWidget :=
  {| temperature := temperature s; ramp_time := ramp_time s; hold_time :=
     hold_time s; flow_rate := flow_rate s; flow_maximum := flow_maximum s;
     flow_suffix := flow_suffix s; range_text := v; inputs_enabled :=
     inputs_enabled s; stage_number := stage_number s |}.

Definition with_inputs_enabled (v : bool) (s : StageWidget) : StageWidget :=
  {| temperature := temperature s; ramp_time := ramp_time s; hold_time :=
     hold_time s; flow_rate := flow_rate s; flow_maximum := flow_maximum s;
     flow_suffix := flow_suffix s; range_text := range_text s;
     inputs_enabled := v; stage_number := stage_number s |}.

Definition with_stage_number (v : Z) (s : StageWidget) : StageWidget :=
  {| temperature := temperature s; ramp_time := ramp_time s; hold_time :=
     hold_time s; flow_rate := flow_rate s; flow_maximum := flow_maximum s;
     flow_suffix := flow_suffix s; range_text := range_text s;
     inputs_enabled := inputs_enabled s; stage_number := v |}.

(** [get_selected_range] and [get_flow_setpoint] *)
Definition get_selected_range (s : StageWidget) : string := range_text s.
Definition get_flow_setpoint (s : StageWidget) : Q := flow_rate s.

(** *** The main window *)

(** What the controller prints. *)
Inductive console_line : Type :=
| Print (text : string)
| PrintError (text : string) (e : exn)
| PrintSetMfc (stage_number : Z) (range_value units : string) (flow : Q).

(** The attributes of [MainWindow] that the controller reads or writes.  The
    six push buttons that [start_furnace] disables and [stop_furnace]
    enables go together ([buttons_enabled]); [finish_in_minutes] is the
    number of minutes that [finishTimeLabel] adds to the wall clock, [None]
    when it shows a dash; [temp_values] is the plotted series (its time
    stamps come from the wall clock). *)
Record MainWindow : Type := {
  furnace : UP150;
  mfc : MKS647B;
  stages : list StageWidget;
  current_stage_index : Z;
  heating_in_progress : bool;
  post_anneal_flow : bool;
  buttons_enabled : bool;
  elapsed_timer_active : bool;
  modeLabel : string;
  stageLabel : string;
  timeLeftLabel : string;
  setpointLabel : string;
  finish_in_minutes : option Z;
  flowLabel : string;
  temp_values : list Z;
  console : list console_line
}.

Definition with_furnace (v : UP150) (w : MainWindow) : MainWindow :=
  {| furnace := v; mfc := mfc w; stages := stages w; current_stage_index :=
     current_stage_index w; heating_in_progress := heating_in_progress w;
     post_anneal_flow := post_anneal_flow w; buttons_enabled :=
     buttons_enabled w; elapsed_timer_active := elapsed_timer_active w;
     modeLabel := modeLabel w; stageLabel := stageLabel w; timeLeftLabel :=
     timeLeftLabel w; setpointLabel := setpointLabel w; finish_in_minutes :=
     finish_in_minutes w; flowLabel := flowLabel w; temp_values :=
     temp_values w; console := console w |}.

Definition with_mfc (v : MKS647B) (w : MainWindow) : MainWindow :=
  {| furnace := furnace w; mfc := v; stages := stages w; current_stage_index
     := current_stage_index w; heating_in_progress := heating_in_progress w;
     post_anneal_flow := post_anneal_flow w; buttons_enabled :=
     buttons_enabled w; elapsed_timer_active := elapsed_timer_active w;
     modeLabel := modeLabel w; stageLabel := stageLabel w; timeLeftLabel :=
     timeLeftLabel w; setpointLabel := setpointLabel w; finish_in_minutes :=
     finish_in_minutes w; flowLabel := flowLabel w; temp_values :=
     temp_values w; console := console w |}.

Definition with_stages (v : list StageWidget) (w : MainWindow) : MainWindow :=
  {| furnace := furnace w; mfc := mfc w; stages := v; current_stage_index :=
     current_stage_index w; heating_in_progress := heating_in_progress w;
     post_anneal_flow := post_anneal_flow w; buttons_enabled :=
     buttons_enabled w; elapsed_timer_active := elapsed_timer_active w;
     modeLabel := modeLabel w; stageLabel := stageLabel w; timeLeftLabel :=
     timeLeftLabel w; setpointLabel := setpointLabel w; finish_in_minutes :=
     finish_in_minutes w; flowLabel := flowLabel w; temp_values :=
     temp_values w; console := console w |}.

Definition with_current_stage_index (v : Z) (w : MainWindow) : MainWindow :=
  {| furnace := furnace w; mfc := mfc w; stages := stages w;
     current_stage_index := v; heating_in_progress := heating_in_progress w;
     post_anneal_flow := post_anneal_flow w; buttons_enabled :=
     buttons_enabled w; elapsed_timer_active := elapsed_timer_active w;
     modeLabel := modeLabel w; stageLabel := stageLabel w; timeLeftLabel :=
     timeLeftLabel w; setpointLabel := setpointLabel w; finish_in_minutes :=
     finish_in_minutes w; flowLabel := flowLabel w; temp_values :=
     temp_values w; console := console w |}.

Definition with_heating_in_progress (v : bool) (w : MainWindow) : MainWindow :=
  {| furnace := furnace w; mfc := mfc w; stages := stages w;
     current_stage_index := current_stage_index w; heating_in_progress := v;
     post_anneal_flow := post_anneal_flow w; buttons_enabled :=
     buttons_enabled w; elapsed_timer_active := elapsed_timer_active w;
     modeLabel := modeLabel w; stageLabel := stageLabel w; timeLeftLabel :=
     timeLeftLabel w; setpointLabel := setpointLabel w; finish_in_minutes :=
     finish_in_minutes w; flowLabel := flowLabel w; temp_values :=
     temp_values w; console := console w |}.

Definition with_post_anneal_flow (v : bool) (w : MainWindow) : MainWindow :=
  {| furnace := furnace w; mfc := mfc w; stages := stages w;
     current_stage_index := current_stage_index w; heating_in_progress :=
     heating_in_progress w; post_anneal_flow := v; buttons_enabled :=
     buttons_enabled w; elapsed_timer_active := elapsed_timer_active w;
     modeLabel := modeLabel w; stageLabel := stageLabel w; timeLeftLabel :=
     timeLeftLabel w; setpointLabel := setpointLabel w; finish_in_minutes :=
     finish_in_minutes w; flowLabel := flowLabel w; temp_values :=
     temp_values w; console := console w |}.

Definition with_buttons_enabled (v : bool) (w : MainWindow) : MainWindow :=
  {| furnace := furnace w; mfc := mfc w; stages := stages w;
     current_stage_index := current_stage_index w; heating_in_progress :=
     heating_in_progress w; post_anneal_flow := post_anneal_flow w;
     buttons_enabled := v; elapsed_timer_active := elapsed_timer_active w;
     modeLabel := modeLabel w; stageLabel := stageLabel w; timeLeftLabel :=
     timeLeftLabel w; setpointLabel := setpointLabel w; finish_in_minutes :=
     finish_in_minutes w; flowLabel := flowLabel w; temp_values :=
     temp_values w; console := console w |}.

Definition with_elapsed_timer_active (v : bool) (w : MainWindow) : MainWindow :=
  {| furnace := furnace w; mfc := mfc w; stages := stages w;
     current_stage_index := current_stage_index w; heating_in_progress :=
     heating_in_progress w; post_anneal_flow := post_anneal_flow w;
     buttons_enabled := buttons_enabled w; elapsed_timer_active := v;
     modeLabel := modeLabel w; stageLabel := stageLabel w; timeLeftLabel :=
     timeLeftLabel w; setpointLabel := setpointLabel w; finish_in_minutes :=
     finish_in_minutes w; flowLabel := flowLabel w; temp_values :=
     temp_values w; console := console w |}.

Definition with_modeLabel (v : string) (w : MainWindow) : MainWindow :=
  {| furnace := furnace w; mfc := mfc w; stages := stages w;
     current_stage_index := current_stage_index w; heating_in_progress :=
     heating_in_progress w; post_anneal_flow := post_anneal_flow w;
     buttons_enabled := buttons_enabled w; elapsed_timer_active :=
     elapsed_timer_active w; modeLabel := v; stageLabel := stageLabel w;
     timeLeftLabel := timeLeftLabel w; setpointLabel := setpointLabel w;
     finish_in_minutes := finish_in_minutes w; flowLabel := flowLabel w;
     temp_values := temp_values w; console := console w |}.

Definition with_stageLabel (v : string) (w : MainWindow) : MainWindow :=
  {| furnace := furnace w; mfc := mfc w; stages := stages w;
     current_stage_index := current_stage_index w; heating_in_progress :=
     heating_in_progress w; post_anneal_flow := post_anneal_flow w;
     buttons_enabled := buttons_enabled w; elapsed_timer_active :=
     elapsed_timer_active w; modeLabel := modeLabel w; stageLabel := v;
     timeLeftLabel := timeLeftLabel w; setpointLabel := setpointLabel w;
     finish_in_minutes := finish_in_minutes w; flowLabel := flowLabel w;
     temp_values := temp_values w; console := console w |}.

Definition with_timeLeftLabel (v : string) (w : MainWindow) : MainWindow :=
  {| furnace := furnace w; mfc := mfc w; stages := stages w;
     current_stage_index := current_stage_index w; heating_in_progress :=
     heating_in_progress w; post_anneal_flow := post_anneal_flow w;
     buttons_enabled := buttons_enabled w; elapsed_timer_active :=
     elapsed_timer_active w; modeLabel := modeLabel w; stageLabel :=
     stageLabel w; timeLeftLabel := v; setpointLabel := setpointLabel w;
     finish_in_minutes := finish_in_minutes w; flowLabel := flowLabel w;
     temp_values := temp_values w; console := console w |}.

Definition with_setpointLabel (v : string) (w : MainWindow) : MainWindow :=
  {| furnace := furnace w; mfc := mfc w; stages := stages w;
     current_stage_index := current_stage_index w; heating_in_progress :=
     heating_in_progress w; post_anneal_flow := post_anneal_flow w;
     buttons_enabled := buttons_enabled w; elapsed_timer_active :=
     elapsed_timer_active w; modeLabel := modeLabel w; stageLabel :=
     stageLabel w; timeLeftLabel := timeLeftLabel w; setpointLabel := v;
     finish_in_minutes := finish_in_minutes w; flowLabel := flowLabel w;
     temp_values := temp_values w; console := console w |}.

Definition with_finish_in_minutes (v : option Z) (w : MainWindow) : MainWindow :=
  {| furnace := furnace w; mfc := mfc w; stages := stages w;
     current_stage_index := current_stage_index w; heating_in_progress :=
     heating_in_progress w; post_anneal_flow := post_anneal_flow w;
     buttons_enabled := buttons_enabled w; elapsed_timer_active :=
     elapsed_timer_active w; modeLabel := modeLabel w; stageLabel :=
     stageLabel w; timeLeftLabel := timeLeftLabel w; setpointLabel :=
     setpointLabel w; finish_in_minutes := v; flowLabel := flowLabel w;
     temp_values := temp_values w; console := console w |}.

Definition with_flowLabel (v : string) (w : MainWindow) : MainWindow :=
  {| furnace := furnace w; mfc := mfc w; stages := stages w;
     current_stage_index := current_stage_index w; heating_in_progress :=
     heating_in_progress w; post_anneal_flow := post_anneal_flow w;
     buttons_enabled := buttons_enabled w; elapsed_timer_active :=
     elapsed_timer_active w; modeLabel := modeLabel w; stageLabel :=
     stageLabel w; timeLeftLabel := timeLeftLabel w; setpointLabel :=
     setpointLabel w; finish_in_minutes := finish_in_minutes w; flowLabel :=
     v; temp_values := temp_values w; console := console w |}.

Definition with_temp_values (v : list Z) (w : MainWindow) : MainWindow :=
  {| furnace := furnace w; mfc := mfc w; stages := stages w;
     current_stage_index := current_stage_index w; heating_in_progress :=
     heating_in_progress w; post_anneal_flow := post_anneal_flow w;
     buttons_enabled := buttons_enabled w; elapsed_timer_active :=
     elapsed_timer_active w; modeLabel := modeLabel w; stageLabel :=
     stageLabel w; timeLeftLabel := timeLeftLabel w; setpointLabel :=
     setpointLabel w; finish_in_minutes := finish_in_minutes w; flowLabel :=
     flowLabel w; temp_values := v; console := console w |}.

Definition with_console (v : list console_line) (w : MainWindow) : MainWindow :=
  {| furnace := furnace w; mfc := mfc w; stages := stages w;
     current_stage_index := current_stage_index w; heating_in_progress :=
     heating_in_progress w; post_anneal_flow := post_anneal_flow w;
     buttons_enabled := buttons_enabled w; elapsed_timer_active :=
     elapsed_timer_active w; modeLabel := modeLabel w; stageLabel :=
     stageLabel w; timeLeftLabel := timeLeftLabel w; setpointLabel :=
     setpointLabel w; finish_in_minutes := finish_in_minutes w; flowLabel :=
     flowLabel w; temp_values := temp_values w; console := v |}.

(** One device snapshot, the arguments of [handle_furnace_data]. *)
Record Snapshot : Type := {
  segment : Z;
  time_left : Z;
  temp : Z;
  flow : Q;
  range_code : Z;
  setpoint : Z
}.

(** Run a driver method on [self.furnace] or [self.mfc]. *)
Definition on_furnace {A} (c : M UP150 A) : M MainWindow A :=
  fun w => let '(r, f) := c (furnace w) in (r, with_furnace f w).

Definition on_mfc {A} (c : M MKS647B A) : M MainWindow A :=
  fun w => let '(r, m) := c (mfc w) in (r, with_mfc m w).

(** [print(...)] *)
Definition log (line : console_line) : M MainWindow unit :=
  modify (fun w => with_console (console w ++ [line]) w).

(** *** [handle_furnace_data] *)

(** [1 + (segment - 1) // 2] and [(segment - 1) // 2] *)
Definition stage_of_segment (segment : Z) : Z := 1 + (segment - 1) / 2.
Definition stage_index_of_segment (segment : Z) : Z := (segment - 1) / 2.

(** The [if segment == 0 / elif segment % 2 == 1 / else] chain: the mode and
    the time left to display. *)
Definition derive_mode (segment time_left : Z) : M MainWindow (string * Z) :=
  if segment =? 0 then ret ("Resting", time_left)
  else if segment mod 2 =? 1 then
    next_len <- on_furnace (get_tm_length (segment + 1)) ;;
    ret ("Ramping", time_left + next_len)
  else ret ("Holding", time_left).

(** [items[start:]] *)
Definition slice_from {A} (items : list A) (start : Z) : list A :=
  if start <? 0
  then skipn (Z.to_nat (Z.max 0 (Z.of_nat (length items) + start))) items
  else skipn (Z.to_nat start) items.

(** The minutes of the stages still to come, added to [remaining_minutes]. *)
Definition add_remaining (remaining_minutes : Z) (rest : list StageWidget) : Z :=
  fold_left (fun acc s => acc + ramp_time s + hold_time s) rest remaining_minutes.

(** [self.mfc.REVERSE_RANGE_DICT[range_code].split()[1]] *)
Definition units_of_range_code (range_code : Z) : result string :=
  match dict_get Z.eqb REVERSE_RANGE_DICT range_code with
  | None => Raise (KeyError (Py.str range_code))
  | Some text =>
      match nth_error (Py.split text) 1 with
      | None => Raise IndexError
      | Some units => Ok units
      end
  end.

(** The labels, the finish estimate and the plot sample. *)
Definition display_block (d : Snapshot) : M MainWindow unit :=
  let stage := stage_of_segment (segment d) in
  mt <- derive_mode (segment d) (time_left d) ;;
  let '(mode, time_left) := mt in
  modify (with_modeLabel ("Mode: " ++ mode)) ;;
  modify (with_stageLabel ("Current Stage: " ++ Py.str stage)) ;;
  modify (with_timeLeftLabel ("Stage Time Left: " ++ Py.str time_left ++ " min")) ;;
  modify (with_setpointLabel ("Setpoint: " ++ Py.str (setpoint d) ++ " °C")) ;;
  heating <- gets heating_in_progress ;;
  (if heating : bool
   then modify (fun w => with_finish_in_minutes
                  (Some (add_remaining time_left (slice_from (stages w) stage))) w)
   else modify (with_finish_in_minutes None)) ;;
  units <- try_except (of_result (units_of_range_code (range_code d)))
             (fun e => log (PrintError "Error decoding MFC range code:" e) ;;
                       ret "?") ;;
  modify (with_flowLabel ("Flow Rate: " ++ Py.fmt_3f (flow d) ++ " " ++ units)) ;;
  modify (fun w => with_temp_values (temp_values w ++ [temp d]) w).

(** The push of one stage's range and setpoint, inside its [try]. *)
Definition push_stage_flow (stage_index : Z) (range_value units : string)
  (flow_setpoint : Q) : M MainWindow unit :=
  try_except
    (rv <- of_option ValueError (Py.int range_value) ;;
     on_mfc (set_range 1 rv units) ;;
     on_mfc (set_flow_setpoint 1 flow_setpoint) ;;
     log (PrintSetMfc (stage_index + 1) range_value units flow_setpoint))
    (fun e => log (PrintError ("Error setting MFC for Stage "
                               ++ Py.str (stage_index + 1) ++ ":") e)).

(** "If the stage has changed since the last check, update MFC settings". *)
Definition sync_mfc_block (d : Snapshot) : M MainWindow unit :=
  let stage_index := stage_index_of_segment (segment d) in
  csi <- gets current_stage_index ;;
  if negb (csi =? stage_index) then
    all <- gets stages ;;
    if (0 <=? stage_index) && (stage_index <? Z.of_nat (length all)) then
      stage_widget <- of_option IndexError (nth_error all (Z.to_nat stage_index)) ;;
      match Py.split (get_selected_range stage_widget) with
      | [range_value; units] =>
          push_stage_flow stage_index range_value units
            (get_flow_setpoint stage_widget) ;;
          modify (with_current_stage_index stage_index)
      | _ => raise ValueError
      end
    else ret tt
  else ret tt.

(** *** [stop_furnace] *)

Definition stop_furnace : M MainWindow unit :=
  try_except
    (_ <- on_furnace set_reset ;;
     modify (with_current_stage_index (-1)) ;;
     modify (with_heating_in_progress false) ;;
     modify (with_elapsed_timer_active false) ;;
     modify (with_buttons_enabled true) ;;
     modify (fun w => with_stages (map (with_inputs_enabled true) (stages w)) w) ;;
     on_mfc (set_range 1 500 "SCCM") ;;
     on_mfc (set_flow_setpoint 1 (inject_Z POST_ANNEAL_FLOW_RATE)) ;;
     log (Print ("Post anneal flow set to " ++ Py.str POST_ANNEAL_FLOW_RATE
                 ++ " SCCM")) ;;
     modify (with_post_anneal_flow true) ;;
     log (Print "Furnace stopped."))
    (fun e => log (PrintError "Failed to stop furnace:" e)).

(** "Furnace Completion Checks" *)
Definition completion_block (d : Snapshot) : M MainWindow unit :=
  let stage := stage_of_segment (segment d) in
  let stage_index := stage_index_of_segment (segment d) in
  heating <- gets heating_in_progress ;;
  if heating : bool then
    all <- gets stages ;;
    csi <- gets current_stage_index ;;
    if stage >? Z.of_nat (length all) then
      stop_furnace ;;
      log (Print "Furnace stopped due to unused segment")
    else if negb (csi =? -1) && (stage_index =? -1) then
      stop_furnace ;;
      log (Print "Furnace stopped due to stage_index wraparound")
    else ret tt
  else ret tt.

(** "Post-Annealing Flow Logic" *)
Definition post_anneal_block (d : Snapshot) : M MainWindow unit :=
  post <- gets post_anneal_flow ;;
  if (temp d <? 30) && post then
    on_mfc (set_range 1 500 "SCCM") ;;
    on_mfc (set_flow_setpoint 1 0) ;;
    on_mfc (close_valve 1) ;;
    modify (with_post_anneal_flow false) ;;
    log (Print "Post-anneal flow turned off due to temperature < 30C")
  else ret tt.

Definition handle_furnace_data (d : Snapshot) : M MainWindow unit :=
  display_block d ;;
  sync_mfc_block d ;;
  completion_block d ;;
  post_anneal_block d.

(** *** [start_furnace] *)

(** [items[i].<attr> = ...] on the stage list. *)
Fixpoint update_nth {A} (i : nat) (f : A -> A) (items : list A) : list A :=
  match items, i with
  | [], _ => []
  | x :: rest, O => f x :: rest
  | x :: rest, S i' => x :: update_nth i' f rest
  end.

(** The body of [for i, stage_widget in enumerate(self.stages)]. *)
Definition program_stage (i : Z) (stage_widget : StageWidget)
  : M MainWindow unit :=
  let temp := temperature stage_widget in
  let ramp_time := ramp_time stage_widget in
  let hold_time := hold_time stage_widget in
  let ramp_segment := i * 2 + 1 in
  let hold_segment := i * 2 + 2 in
  _ <- on_furnace (set_sp_setpoint ramp_segment temp) ;;
  _ <- on_furnace (set_sp_setpoint hold_segment temp) ;;
  _ <- on_furnace (set_tm_length ramp_segment ramp_time) ;;
  _ <- on_furnace (set_tm_length hold_segment hold_time) ;;
  modify (fun w => with_stages
            (update_nth (Z.to_nat i) (with_inputs_enabled false) (stages w)) w).

(** The body of [for seg in range(total_used_segments + 1, 17)]. *)
Definition clear_segment (seg : Z) : M MainWindow unit :=
  _ <- on_furnace (set_sp_setpoint seg 0) ;;
  _ <- on_furnace (set_tm_length seg 0) ;;
  log (Print ("Cleared unused segment " ++ Py.str seg ++ ": set to 0C, 0 min.")).

Definition start_furnace : M MainWindow unit :=
  _ <- on_furnace (set_start_setpoint default_start_setpoint) ;;
  modify (with_buttons_enabled false) ;;
  try_except
    (all <- gets stages ;;
     for_each (enumerate all) (fun ix => program_stage (fst ix) (snd ix)) ;;
     all' <- gets stages ;;
     let total_used_segments := Z.of_nat (length all') * 2 in
     for_each (py_range (total_used_segments + 1) 17) clear_segment ;;
     _ <- on_furnace set_run ;;
     on_mfc (open_valve 1) ;;
     modify (with_heating_in_progress true) ;;
     modify (with_elapsed_timer_active true) ;;
     log (Print "Furnace started with user-defined temperature profile."))
    (fun e => log (PrintError "Failed to start furnace:" e)).

(** *** Recipe files *)

(** The value of [json.load]. *)
#[warnings="-register-all"]
Inductive json : Type :=
| JNull
| JBool (b : bool)
| JInt (z : Z)
| JFloat (q : Q)
| JStr (s : string)
| JArr (items : list json)
| JObj (members : list (string * json)).

(** [data.get("stages", [])]: only a dictionary has [get]. *)
Definition json_get_stages (data : json) : result json :=
  match data with
  | JObj members =>
      match dict_get String.eqb members "stages" with
      | Some v => Ok v
      | None => Ok (JArr [])
      end
  | _ => Raise AttributeError
  end.

Fixpoint chars (s : string) : list json :=
  match s with
  | EmptyString => []
  | String c r => JStr (String c EmptyString) :: chars r
  end.

(** [for stage_data in value]: the elements of a list, the keys of a
    dictionary, the characters of a string. *)
Definition json_iter (value : json) : result (list json) :=
  match value with
  | JArr items => Ok items
  | JObj members => Ok (map (fun kv => JStr (fst kv)) members)
  | JStr s => Ok (chars s)
  | _ => Raise TypeError
  end.

(** [stage_data[key]] for a string key. *)
Definition json_item (stage_data : json) (key : string) : result json :=
  match stage_data with
  | JObj members =>
      match dict_get String.eqb members key with
      | Some v => Ok v
      | None => Raise (KeyError key)
      end
  | _ => Raise TypeError
  end.

(** The argument conversions of [QSpinBox.setValue], [QDoubleSpinBox.setValue]
    and [QComboBox.setCurrentText]. *)
Definition as_int (v : json) : result Z :=
  match v with
  | JInt z => Ok z
  | JBool b => Ok (if b then 1 else 0)
  | _ => Raise TypeError
  end.

Definition as_float (v : json) : result Q :=
  match v with
  | JInt z => Ok (inject_Z z)
  | JBool b => Ok (if b then 1 else 0)%Q
  | JFloat q => Ok q
  | _ => Raise TypeError
  end.

Definition as_text (v : json) : result string :=
  match v with
  | JStr s => Ok s
  | _ => Raise TypeError
  end.

(** *** The recipe model: [StageWidget()], [add_stage], [remove_stage] *)

(** [StageWidget.ui] is not among the sources.  What the code takes from it
    is kept as a parameter: the values the four spin boxes start with, and
    the value a spin box holds after [setValue(v)] (Qt constrains [v] to the
    range the form declares; for [flowRateSpinBox] the upper end of that
    range is the maximum set by [update_flow_spinbox]). *)
Record StageForm : Type := {
  form_temperature : Z;
  form_ramp_time : Z;
  form_hold_time : Z;
  form_flow_rate : Q;
  spin_temperature : Z -> Z;
  spin_ramp_time : Z -> Z;
  spin_hold_time : Z -> Z;
  spin_flow_rate : Q -> Q -> Q
}.

Section Recipe.

Variable ui : StageForm.

(** [update_flow_spinbox]: suffix and maximum follow the selected range;
    the value held is constrained to the new maximum. *)
Definition update_flow_spinbox (s : StageWidget) : StageWidget :=
  match Py.split (range_text s) with
  | [value_text; units] =>
      match Py.float value_text with
      | Some value =>
          let max_flow := (value * (11 # 10))%Q in
          with_flow_rate (spin_flow_rate ui max_flow (flow_rate s))
            (with_flow_maximum max_flow
               (with_flow_suffix (" " ++ units) s))
      | None => s
      end
  | _ => s
  end.

(** [rangeComboBox.setCurrentText(text)] once [currentTextChanged] is
    connected to [update_flow_spinbox]: only an item of the list can be
    selected, and the slot runs when the selection changes. *)
Definition set_current_text (text : string) (s : StageWidget) : StageWidget :=
  if existsb (String.eqb text) range_list && negb (String.eqb text (range_text s))
  then update_flow_spinbox (with_range_text text s)
  else s.

(** [StageWidget()] *)
Definition new_stage : StageWidget :=
  update_flow_spinbox
    {| temperature := form_temperature ui;
       ramp_time := form_ramp_time ui;
       hold_time := form_hold_time ui;
       flow_rate := form_flow_rate ui;
       flow_maximum := 0;
       flow_suffix := "";
       range_text := "500 SCCM";
       inputs_enabled := true;
       stage_number := 0 |}.

(** [update_stage_labels] *)
Definition update_stage_labels (all : list StageWidget) : list StageWidget :=
  map (fun ix => with_stage_number (fst ix + 1) (snd ix)) (enumerate all).

Definition add_stage : M MainWindow unit :=
  all <- gets stages ;;
  if (Z.of_nat (length all) >=? 8) then ret tt
  else modify (with_stages (update_stage_labels (all ++ [new_stage]))).

Definition remove_stage : M MainWindow unit :=
  all <- gets stages ;;
  match all with
  | [] => ret tt
  | _ => modify (with_stages (update_stage_labels (removelast all)))
  end.

(** *** [load_recipe] and [save_recipe] *)

(** An update of [self.stages[-1]]. *)
Definition on_last_stage (f : StageWidget -> StageWidget) : M MainWindow unit :=
  all <- gets stages ;;
  match all with
  | [] => raise IndexError
  | _ => modify (with_stages (update_nth (length all - 1) f all))
  end.

(** The body of [for stage_data in data.get("stages", [])]. *)
Definition load_stage (stage_data : json) : M MainWindow unit :=
  add_stage ;;
  on_last_stage (fun stage_widget => stage_widget) ;;
  v <- of_result (json_item stage_data "temperature") ;;
  t <- of_result (as_int v) ;;
  on_last_stage (with_temperature (spin_temperature ui t)) ;;
  v <- of_result (json_item stage_data "ramp_time") ;;
  r <- of_result (as_int v) ;;
  on_last_stage (with_ramp_time (spin_ramp_time ui r)) ;;
  v <- of_result (json_item stage_data "hold_time") ;;
  h <- of_result (as_int v) ;;
  on_last_stage (with_hold_time (spin_hold_time ui h)) ;;
  v <- of_result (json_item stage_data "range") ;;
  text <- of_result (as_text v) ;;
  on_last_stage (set_current_text text) ;;
  on_last_stage update_flow_spinbox ;;
  v <- of_result (json_item stage_data "flow_rate") ;;
  q <- of_result (as_float v) ;;
  on_last_stage (fun s => with_flow_rate (spin_flow_rate ui (flow_maximum s) q) s).

(** [load_recipe]: [filename] is the answer of the file dialog (empty when
    it is dismissed), [file] the outcome of [open] and [json.load] on it.
    The [while self.stages: self.remove_stage()] loop runs once per stage
    present. *)
Definition load_recipe (filename : string) (file : result json)
  : M MainWindow unit :=
  if String.eqb filename "" then ret tt
  else
    data <- of_result file ;;
    all <- gets stages ;;
    for_each all (fun _ => remove_stage) ;;
    listed <- of_result (json_get_stages data) ;;
    records <- of_result (json_iter listed) ;;
    for_each records load_stage ;;
    log (Print ("Recipe loaded from " ++ filename)).

(** The stage records that [save_recipe] hands to [json.dump]. *)
Definition stage_record (s : StageWidget) : json :=
  JObj [ ("temperature", JInt (temperature s));
         ("ramp_time", JInt (ramp_time s));
         ("hold_time", JInt (hold_time s));
         ("flow_rate", JFloat (flow_rate s));
         ("range", JStr (get_selected_range s)) ].

Definition save_recipe (w : MainWindow) : json :=
  JObj [ ("stages", JArr (map stage_record (stages w))) ].

(** *** [MainWindow()] and the events it serves *)

(** The attributes as [__init__] sets them, on fresh links; the label texts
    of [MainWindow.ui] are not among the sources and start empty here. *)
Definition fresh_window (furnace_respond mfc_respond : list string -> string)
  : MainWindow :=
  {| furnace := {| link_respond := furnace_respond; link_sent := [] |};
     mfc := {| inst_respond := mfc_respond; inst_sent := [] |};
     stages := [];
     current_stage_index := -1;
     heating_in_progress := false;
     post_anneal_flow := false;
     buttons_enabled := true;
     elapsed_timer_active := false;
     modeLabel := "";
     stageLabel := "";
     timeLeftLabel := "";
     setpointLabel := "";
     finish_in_minutes := None;
     flowLabel := "";
     temp_values := [];
     console := [] |}.

(** The device part of [MainWindow.__init__]: both constructors, then the
    "MFC initial settings". *)
Definition init_devices : M MainWindow unit :=
  on_furnace Up150.init_steps ;;
  on_mfc (Mks647b.init_steps default_range_value default_range_unit) ;;
  on_mfc (set_flow_setpoint 1 0) ;;
  on_mfc (set_gas_menu 0) ;;
  on_mfc (open_valve 1) ;;
  on_mfc (open_valve 0).

(** [MainWindow()]: when a step raises, no window is built; the state
    returned then shows what had been transmitted. *)
Definition init (furnace_respond mfc_respond : list string -> string)
  : result unit * MainWindow :=
  init_devices (fresh_window furnace_respond mfc_respond).

(** The signals connected in [__init__]. *)
Inductive event : Type :=
| DataReady (d : Snapshot)
| StartClicked
| StopClicked
| AddStageClicked
| RemoveStageClicked
| CloseValveClicked
| LoadRecipeClicked (filename : string) (file : result json).

Definition dispatch (e : event) : M MainWindow unit :=
  match e with
  | DataReady d => handle_furnace_data d
  | StartClicked => start_furnace
  | StopClicked => stop_furnace
  | AddStageClicked => add_stage
  | RemoveStageClicked => remove_stage
  | CloseValveClicked => on_mfc (close_valve 1)
  | LoadRecipeClicked filename file => load_recipe filename file
  end.

(** The window after a sequence of events, each served to completion (or to
    the exception that ends its slot) before the next. *)
Definition serve (events : list event) (w : MainWindow) : MainWindow :=
  fold_left (fun w e => snd (dispatch e w)) events w.

End Recipe.

End Main.

(** ** Vocabulary of the properties *)

Module Spec.

Import Mks647b Up150 Main.

Local Open Scope string_scope.

(** A reply that begins with the error sentinel ['E']. *)
Definition begins_with_sentinel (reply : string) : bool :=
  match Py.index reply 0 with
  | Some c => Ascii.eqb c "E"
  | None => false
  end.

(** The reply of the instrument behind [m] to the [i]-th consecutive
    transmission of [command] (counting from 1). *)
Definition attempt_reply (m : MKS647B) (command : string) (i : nat) : string :=
  inst_respond m (inst_sent m ++ repeat command i).

(** An out-of-range argument. *)
Definition outside (lo hi x : Z) : Prop := ~ (lo <= x <= hi)%Z.

(** Between [m] and [m'] only the range query and the correction-factor
    query of [channel] went out (each possibly repeated by the retry loop,
    possibly not at all). *)
Definition only_queried (channel : Z) (m m' : MKS647B) : Prop :=
  exists k1 k2 : nat,
    m' = transmit (repeat ("RA " ++ Py.str channel ++ " R") k1
                   ++ repeat ("GC " ++ Py.str channel ++ " R") k2) m.

(** A computation on the window under which the relation [R] holds between
    the state before and the state after, whatever its outcome. *)
Definition stable {A} (R : MainWindow -> MainWindow -> Prop)
  (c : M MainWindow A) : Prop :=
  forall w, R w (snd (c w)).

(** The attribute [attr] has the same value after as before. *)
Definition unchanged {T} (attr : MainWindow -> T) : MainWindow -> MainWindow -> Prop :=
  fun w w' => attr w' = attr w.

(** The frames that program one stage, those that clear one segment, and
    those that [start_furnace] writes for a recipe: every stage in order,
    then every segment after the last used one up to 16. *)
Definition stage_frames (i : Z) (s : StageWidget) : list string :=
  [ sp_setpoint_frame (2 * i + 1) (temperature s);
    sp_setpoint_frame (2 * i + 2) (temperature s);
    tm_length_frame (2 * i + 1) (ramp_time s);
    tm_length_frame (2 * i + 2) (hold_time s) ].

Definition clear_frames (seg : Z) : list string :=
  [ sp_setpoint_frame seg 0; tm_length_frame seg 0 ].

Definition recipe_frames (all : list StageWidget) : list string :=
  flat_map (fun ix => stage_frames (fst ix) (snd ix)) (enumerate all)
  ++ flat_map clear_frames (py_range (2 * Z.of_nat (length all) + 1) 17).

(** Between [w] and [w'] the furnace was written [frames] and nothing else
    of the links or the run state changed. *)
Definition programmed (frames : list string) (w w' : MainWindow) : Prop :=
  furnace w' = written frames (furnace w) /\ mfc w' = mfc w /\
  length (stages w') = length (stages w) /\
  heating_in_progress w' = heating_in_progress w.

(** Every stage temperature is one the furnace accepts. *)
Definition temperatures_valid (w : MainWindow) : Prop :=
  Forall (fun s => 0 <= temperature s <= 1200) (stages w).

(** The log of a link on which the commands [cmds] went out in order, each
    transmitted between one and five times in a row by the retry loop. *)
Inductive sent_with_retries : list string -> list string -> Prop :=
| swr_nil : sent_with_retries [] []
| swr_cons (c : string) (cs : list string) (k : nat) (log : list string) :
    (1 <= k <= 5)%nat -> sent_with_retries cs log ->
    sent_with_retries (c :: cs) (repeat c k ++ log).

(** The engineering value of one count of the 1000-scaled integer, for a
    range factor and a correction factor. *)
Definition count_size (range_factor factor : Q) : Q :=
  (range_factor * factor / 1000)%Q.

(** A setpoint written and read back, range and correction factor fixed. *)
Definition read_back (set_point range_factor factor : Q) : Q :=
  from_device (inject_Z (to_device set_point range_factor factor))
    range_factor factor.

(** [enumerate], counting from [a]. *)
Definition number_from {A} (a : nat) (l : list A) : list (Z * A) :=
  combine (map Z.of_nat (seq a (length l))) l.

(** The fields of a stage record, in the order [load_recipe] reads them,
    or the exception that reading them raises. *)
Record StageFields : Type := {
  f_temperature : Z;
  f_ramp_time : Z;
  f_hold_time : Z;
  f_range : string;
  f_flow_rate : Q
}.

Definition read_fields (stage_data : json) : result StageFields :=
  match json_item stage_data "temperature" with
  | Raise e => Raise e
  | Ok v1 =>
  match as_int v1 with
  | Raise e => Raise e
  | Ok t =>
  match json_item stage_data "ramp_time" with
  | Raise e => Raise e
  | Ok v2 =>
  match as_int v2 with
  | Raise e => Raise e
  | Ok r =>
  match json_item stage_data "hold_time" with
  | Raise e => Raise e
  | Ok v3 =>
  match as_int v3 with
  | Raise e => Raise e
  | Ok h =>
  match json_item stage_data "range" with
  | Raise e => Raise e
  | Ok v4 =>
  match as_text v4 with
  | Raise e => Raise e
  | Ok text =>
  match json_item stage_data "flow_rate" with
  | Raise e => Raise e
  | Ok v5 =>
  match as_float v5 with
  | Raise e => Raise e
  | Ok q =>
      Ok {| f_temperature := t; f_ramp_time := r; f_hold_time := h;
            f_range := text; f_flow_rate := q |}
  end end end end end end end end end end.

Section Loading.

Variable ui : StageForm.

(** A stage widget after the five fields were given to its boxes. *)
Definition filled (f : StageFields) (s : StageWidget) : StageWidget :=
  let s1 := with_temperature (spin_temperature ui (f_temperature f)) s in
  let s2 := with_ramp_time (spin_ramp_time ui (f_ramp_time f)) s1 in
  let s3 := with_hold_time (spin_hold_time ui (f_hold_time f)) s2 in
  let s4 := update_flow_spinbox ui (set_current_text ui (f_range f) s3) in
  with_flow_rate (spin_flow_rate ui (flow_maximum s4) (f_flow_rate f)) s4.

(** The stage list after one more record: a new last stage while there are
    fewer than eight, and the record's fields in the last stage. *)
Definition load_one (all : list StageWidget) (f : StageFields)
  : list StageWidget :=
  let all' := if Z.of_nat (length all) >=? 8 then all
              else update_stage_labels (all ++ [new_stage ui]) in
  update_nth (length all' - 1) (filled f) all'.

(** The window [w] with stage list [all'], the last stage of which went
    through [F]. *)
Definition lastly (all' : list StageWidget) (w : MainWindow)
  (F : StageWidget -> StageWidget) : MainWindow :=
  with_stages (update_nth (length all' - 1) F all') w.

(** The stage list after the records of a file, read in order. *)
Definition loaded (fields : list StageFields) : list StageWidget :=
  fold_left load_one fields [].

(** One stage per record, in file order, numbered from 1. *)
Definition one_per_record (fields : list StageFields) : list StageWidget :=
  map (fun ix => filled (snd ix) (with_stage_number (fst ix + 1) (new_stage ui)))
    (enumerate fields).

End Loading.

(** A recipe file: a dictionary whose "stages" entry lists [records]. *)
Definition recipe_file (records : list json) : result json :=
  Ok (JObj [("stages", JArr records)]).

(** The recipe model keeps at most eight stages. *)
Definition at_most_eight (a b : MainWindow) : Prop :=
  (length (stages a) <= 8)%nat -> (length (stages b) <= 8)%nat.

(** The purge flag, once up, stays up. *)
Definition flag_stays (a b : MainWindow) : Prop :=
  post_anneal_flow a = true -> post_anneal_flow b = true.

(** The controller is in its post-anneal state: no run on, purge flag up,
    no stage on record. *)
Definition in_post_anneal (w : MainWindow) : Prop :=
  post_anneal_flow w = true /\ heating_in_progress w = false /\
  current_stage_index w = -1.

(** The window after the snapshots [ds] were handled one after the other. *)
Definition polled (ds : list Snapshot) (w : MainWindow) : MainWindow :=
  fold_left (fun w d => snd (handle_furnace_data d w)) ds w.

(** How many times the furnace has been sent the reset frame. *)
Definition resets (w : MainWindow) : nat :=
  count_occ string_dec (link_sent (furnace w)) reset_frame.

Local Open Scope Z_scope.
Local Open Scope py_scope.

(** The stage index derived from a snapshot. *)
Definition derived_index (d : Snapshot) : Z :=
  stage_index_of_segment (segment d).

(** The furnace is past the last configured segment. *)
Definition overrun (d : Snapshot) (w : MainWindow) : Prop :=
  segment d > 2 * Z.of_nat (length (stages w)).

(** The segment counter is back at 0 while a stage index is on record. *)
Definition wrapped (d : Snapshot) (w : MainWindow) : Prop :=
  segment d = 0 /\ current_stage_index w <> -1.

(** The derived stage index is new and names a configured stage. *)
Definition stage_changed (d : Snapshot) (w : MainWindow) : Prop :=
  current_stage_index w <> derived_index d /\
  0 <= derived_index d < Z.of_nat (length (stages w)).

(** The test of the completion check: a run is on, and the furnace is past
    the recipe or reports no stage while one is on record. *)
Definition stop_due (d : Snapshot) (w : MainWindow) : Prop :=
  heating_in_progress w = true /\
  (overrun d w \/ (derived_index d = -1 /\ current_stage_index w <> -1)).

(** Every stage holds an item of the range list, as the combo box
    guarantees. *)
Definition ranges_listed (w : MainWindow) : Prop :=
  Forall (fun s => In (range_text s) range_list) (stages w).

(** The three command sequences that snapshot handling sends to the flow
    controller, as driver calls: the range and setpoint of a stage; the
    purge after a run (500 SCCM range, 6 SCCM); the shut-off once the
    chamber is cold (500 SCCM range, setpoint 0, valve 1 closed). *)
Definition stage_commands (s : StageWidget) : M MKS647B unit :=
  match Py.split (range_text s) with
  | [range_value; units] =>
      rv <- of_option ValueError (Py.int range_value) ;;
      set_range 1 rv units ;;
      set_flow_setpoint 1 (flow_rate s)
  | _ => raise ValueError
  end.

Definition purge_commands : M MKS647B unit :=
  set_range 1 500 "SCCM" ;;
  set_flow_setpoint 1 (inject_Z POST_ANNEAL_FLOW_RATE).

Definition shutoff_commands : M MKS647B unit :=
  set_range 1 500 "SCCM" ;;
  set_flow_setpoint 1 0 ;;
  close_valve 1.

(** *** Instruments for concrete runs *)

(** An instrument that answers its [n]-th command with the [n]-th reply of a
    script, and with an empty line once the script is over. *)
Definition scripted (replies : list string) : list string -> string :=
  fun history => nth (length history - 1) replies "".

(** A 647B on the bench: range code 8 (500 SCCM) and correction factor 1.00
    on every channel, no flow and setpoint 0, every command accepted. *)
Definition bench_reply (command : string) : string :=
  match Py.split command with
  | ["RA"; _; "R"] => "08" ++ CR
  | ["GC"; _; "R"] => "0100" ++ CR
  | ["FS"; _; "R"] => "0000" ++ CR
  | ["FL"; _] => "00000" ++ CR
  | _ => CR
  end.

Definition bench_mfc : list string -> string :=
  fun history => bench_reply (last history "").

(** A 647B that rejects every command with error code 4. *)
Definition rejecting_mfc : list string -> string := fun _ => "E4" ++ CR.

(** A driver object on a fresh link. *)
Definition fresh_mfc (respond : list string -> string) : MKS647B :=
  {| inst_respond := respond; inst_sent := [] |}.

(** A UP150 on the bench: every register reads 5. *)
Definition bench_furnace : list string -> string :=
  fun _ => STX ++ "0101OK0005" ++ ETX ++ CR.

(** A stage as the form would hold it: 200 degrees, 10 minutes of ramp,
    5 of hold, 50 SCCM on the 500 SCCM range. *)
Definition sample_stage : StageWidget :=
  {| temperature := 200; ramp_time := 10; hold_time := 5;
     flow_rate := 50; flow_maximum := 550; flow_suffix := " SCCM";
     range_text := "500 SCCM"; inputs_enabled := true; stage_number := 1 |}.

(** A window on the bench instruments, one stage long, in the middle of a
    run: heating, with stage index 0 recorded. *)
Definition running_window : MainWindow :=
  with_current_stage_index 0
    (with_heating_in_progress true
       (with_stages [sample_stage] (fresh_window bench_furnace bench_mfc))).

(** The same window after the run: idle, purge flow on. *)
Definition post_anneal_window : MainWindow :=
  with_post_anneal_flow true (with_stages [sample_stage]
                                (fresh_window bench_furnace bench_mfc)).

(** A stage form whose spin boxes start at 0 and keep temperatures within
    0..1200, minutes within 0..9999 and flows within 0 and the maximum. *)
Definition clamp (lo hi v : Z) : Z := Z.max lo (Z.min hi v).

Definition bench_form : StageForm :=
  {| form_temperature := 0; form_ramp_time := 0; form_hold_time := 0;
     form_flow_rate := 0;
     spin_temperature := clamp 0 1200;
     spin_ramp_time := clamp 0 9999;
     spin_hold_time := clamp 0 9999;
     spin_flow_rate := fun maximum v =>
       if Qle_bool v 0 then 0%Q
       else if Qle_bool maximum v then maximum else v |}.

Definition snapshot (segment time_left temp : Z) : Snapshot :=
  {| segment := segment; time_left := time_left; temp := temp;
     flow := 0; range_code := 8; setpoint := temp |}.

End Spec.

(** * Properties *)

Import Mks647b Up150 Main Spec.

Example py_fmt_examples :
  Py.fmt_04d 12 = "0012"%string /\ Py.fmt_04X 1200 = "04B0"%string /\
  Py.fmt_02d 59 = "59"%string /\ Py.str 0 = "0"%string /\
  Py.fmt_04d (-5) = "-005"%string /\ Py.str 500 = "500"%string /\
  Py.fmt_04d 12345 = "12345"%string /\ Py.fmt_04X 0 = "0000"%string.
Proof. repeat split; reflexivity. Qed.

Example py_parse_examples :
  Py.int " 08 "%string = Some 8 /\ Py.int16 "04B0"%string = Some 1200 /\
  Py.int ""%string = None /\ Py.int "E4"%string = None /\
  Py.split "500 SCCM"%string = ["500"; "SCCM"]%string /\
  Py.round (5 # 2) = 2 /\ Py.round (7 # 2) = 4 /\ Py.round (-1 # 3) = 0 /\
  Py.round (249 # 100) = 2.
Proof. repeat split; reflexivity. Qed.

Example py_float_examples :
  option_map Qred (Py.float "100"%string) = Some (100 # 1)%Q /\
  option_map Qred (Py.float " 0.25"%string) = Some (1 # 4)%Q /\
  Py.float "."%string = None /\ Py.float "E4"%string = None.
Proof. repeat split; reflexivity. Qed.


(** ** The retry loop of the flow controller driver *)

Section IterateQuery.

Variable command : string.

Lemma transmit_transmit (a b : list string) (m : MKS647B) :
  transmit b (transmit a m) = transmit (a ++ b) m.
Proof. unfold transmit; simpl. now rewrite app_assoc. Qed.

Lemma attempt_reply_shift (m : MKS647B) (j : nat) :
  attempt_reply (transmit [command] m) command j
  = attempt_reply m command (S j).
Proof. unfold attempt_reply; simpl. now rewrite <- app_assoc. Qed.

Lemma inst_query_eq (m : MKS647B) :
  inst_query command m
  = (Ok (attempt_reply m command 1), transmit [command] m).
Proof. reflexivity. Qed.

Lemma sentinel_index (reply : string) :
  begins_with_sentinel reply = true -> Py.index reply 0 = Some "E"%char.
Proof.
  unfold begins_with_sentinel. destruct (Py.index reply 0) as [c|]; [|discriminate].
  intros H. apply Ascii.eqb_eq in H. now subst.
Qed.

(** Every attempt answered with the sentinel: the loop runs out and decodes
    the last reply. *)
Lemma loop_exhausted (n : nat) : forall (val : string) (m : MKS647B),
  (forall j, (1 <= j <= n)%nat ->
             begins_with_sentinel (attempt_reply m command j) = true) ->
  iterate_query_loop n command val m
  = (decode_error (match n with O => val | _ => attempt_reply m command n end),
     transmit (repeat command n) m).
Proof.
  induction n as [|n IH]; intros val m Hall.
  - simpl. unfold of_result, transmit. simpl. rewrite app_nil_r. now destruct m.
  - cbn [iterate_query_loop]. unfold bind. rewrite inst_query_eq.
    cbv beta iota.
    rewrite (sentinel_index _ (Hall 1%nat ltac:(lia))), Ascii.eqb_refl.
    rewrite IH.
    + rewrite transmit_transmit. f_equal. destruct n; [reflexivity|].
      now rewrite attempt_reply_shift.
    + intros j Hj. rewrite attempt_reply_shift. apply Hall. lia.
Qed.

(** The first reply without the sentinel ends the loop and is returned. *)
Lemma loop_first_good (n : nat) : forall (i : nat) (val : string) (m : MKS647B),
  (1 <= i <= n)%nat ->
  (forall j, (1 <= j < i)%nat ->
             begins_with_sentinel (attempt_reply m command j) = true) ->
  attempt_reply m command i <> EmptyString ->
  begins_with_sentinel (attempt_reply m command i) = false ->
  iterate_query_loop n command val m
  = (Ok (attempt_reply m command i), transmit (repeat command i) m).
Proof.
  induction n as [|n IH]; intros i val m Hi Hbefore Hne Hgood; [lia|].
  cbn [iterate_query_loop]. unfold bind. rewrite inst_query_eq.
  cbv beta iota.
  destruct (Nat.eq_dec i 1) as [->|Hi1].
  - unfold begins_with_sentinel in Hgood.
    destruct (Py.index (attempt_reply m command 1) 0) as [c|] eqn:E.
    + rewrite Hgood. reflexivity.
    + exfalso. apply Hne. unfold Py.index in E.
      destruct (attempt_reply m command 1); [reflexivity|discriminate].
  - rewrite (sentinel_index _ (Hbefore 1%nat ltac:(lia))), Ascii.eqb_refl.
    destruct i as [|i]; [lia|].
    rewrite (IH i).
    + now rewrite transmit_transmit, attempt_reply_shift.
    + lia.
    + intros j Hj. rewrite attempt_reply_shift. apply Hbefore. lia.
    + now rewrite attempt_reply_shift.
    + now rewrite attempt_reply_shift.
Qed.

(** Whatever the replies, the loop transmits the command at least once and
    at most [n] times, and nothing else. *)
Lemma loop_attempts (n : nat) : forall (val : string) (m : MKS647B),
  exists k, (k <= n)%nat /\ (1 <= n -> 1 <= k)%nat /\
            snd (iterate_query_loop n command val m)
            = transmit (repeat command k) m.
Proof.
  induction n as [|n IH]; intros val m.
  - exists 0%nat. repeat split; try lia. simpl. unfold transmit; simpl.
    rewrite app_nil_r. now destruct m.
  - cbn [iterate_query_loop]. unfold bind. rewrite inst_query_eq.
    cbv beta iota.
    destruct (Py.index (attempt_reply m command 1) 0) as [c|].
    + destruct (Ascii.eqb c "E").
      * destruct (IH (attempt_reply m command 1) (transmit [command] m))
          as (k & Hk & _ & Heq).
        exists (S k). repeat split; try lia.
        rewrite Heq. now rewrite transmit_transmit.
      * exists 1%nat. repeat split; try lia.
    + exists 1%nat. repeat split; try lia.
Qed.

End IterateQuery.

(** C5.  A query is transmitted at least once and at most five times and
    nothing else goes out; the first reply that does not begin with ['E'] is
    returned, without further attempts; when all five replies begin with
    ['E'], the call raises the exception classified by the second character
    of the fifth reply: ['0'] channel error, ['1'] unknown command, ['2']
    syntax error, ['3'] invalid expression, ['4'] invalid value, ['5']
    autozero error, anything else unknown error. *)
Theorem iterate_query_retries_then_decodes (command : string) (m : MKS647B) :
  (exists k, (1 <= k <= 5)%nat /\
     snd (iterate_query command m) = transmit (repeat command k) m) /\
  (forall i, (1 <= i <= 5)%nat ->
     (forall j, (1 <= j < i)%nat ->
        begins_with_sentinel (attempt_reply m command j) = true) ->
     attempt_reply m command i <> EmptyString ->
     begins_with_sentinel (attempt_reply m command i) = false ->
     iterate_query command m
     = (Ok (attempt_reply m command i), transmit (repeat command i) m)) /\
  (forall c,
     (forall j, (1 <= j <= 5)%nat ->
        begins_with_sentinel (attempt_reply m command j) = true) ->
     Py.index (attempt_reply m command 5) 1 = Some c ->
     iterate_query command m
     = (Raise (MfcException (fault_of_code c)),
        transmit (repeat command 5) m)) /\
  (fault_of_code "0" = ChannelError /\ fault_of_code "1" = UnknownCommand /\
   fault_of_code "2" = SyntaxError /\ fault_of_code "3" = InvalidExpression /\
   fault_of_code "4" = InvalidValue /\ fault_of_code "5" = AutozeroError /\
   forall c, ~ In c ["0"; "1"; "2"; "3"; "4"; "5"]%char ->
             fault_of_code c = UnknownError).
Proof.
  unfold iterate_query, MAX_COUNT. repeat split.
  - destruct (loop_attempts command 5 EmptyString m) as (k & Hk & Hk1 & Heq).
    exists k. split; [lia|exact Heq].
  - intros i Hi Hbefore Hne Hgood. now apply loop_first_good.
  - intros c Hall Hc. rewrite loop_exhausted by exact Hall.
    unfold decode_error. now rewrite Hc.
  - intros c Hc. unfold fault_of_code.
    repeat match goal with
    | |- context [Ascii.eqb c ?d] =>
        destruct (Ascii.eqb_spec c d) as [->|_];
        [exfalso; apply Hc; simpl; tauto|]
    end.
    reflexivity.
Qed.

Lemma iterate_query_retries_then_decodes_witness :
  iterate_query "FS 1 2000" (fresh_mfc rejecting_mfc)
  = (Raise (MfcException InvalidValue),
     transmit (repeat "FS 1 2000"%string 5) (fresh_mfc rejecting_mfc)).
Proof.
  apply (proj1 (proj2 (proj2
           (iterate_query_retries_then_decodes "FS 1 2000"
              (fresh_mfc rejecting_mfc)))) "4"%char).
  - intros j Hj. reflexivity.
  - reflexivity.
Defined.

(** ** Argument checks of the flow controller driver *)

Lemma check_fails (lo hi x : Z) :
  outside lo hi x -> (x >=? lo) && (x <=? hi) = false.
Proof. unfold outside. intros H. destruct (Z.geb_spec x lo), (Z.leb_spec x hi); simpl; try reflexivity. lia. Qed.

Lemma check_passes (lo hi x : Z) :
  lo <= x <= hi -> (x >=? lo) && (x <=? hi) = true.
Proof. intros H. destruct (Z.geb_spec x lo), (Z.leb_spec x hi); simpl; try reflexivity; lia. Qed.

(** What one [iterate_query] leaves on the link, whatever its outcome. *)
Lemma iterate_query_sent (command : string) (m : MKS647B) :
  exists k, (1 <= k <= 5)%nat /\
    snd (iterate_query command m) = transmit (repeat command k) m.
Proof.
  destruct (loop_attempts command 5 EmptyString m) as (k & Hk & Hk1 & Heq).
  exists k. split; [lia|exact Heq].
Qed.

Ltac rejected H :=
  unfold bind, py_assert; rewrite (check_fails _ _ _ H); reflexivity.

Lemma get_range_rejects (channel : Z) (m : MKS647B) :
  outside 1 8 channel -> get_range channel m = (Raise AssertionError, m).
Proof. intros H. unfold get_range. rejected H. Qed.

Lemma get_range_sent (channel : Z) (m : MKS647B) :
  1 <= channel <= 8 ->
  exists k, (1 <= k <= 5)%nat /\
    snd (get_range channel m)
    = transmit (repeat ("RA " ++ Py.str channel ++ " R")%string k) m.
Proof.
  intros H. unfold get_range, bind, py_assert. rewrite (check_passes _ _ _ H).
  cbv beta iota. unfold ret at 1. cbv beta iota.
  destruct (iterate_query_sent ("RA " ++ Py.str channel ++ " R") m) as (k & Hk & Heq).
  exists k. split; [exact Hk|].
  destruct (iterate_query _ m) as [[val|e] m1]; simpl in Heq; subst m1; [|reflexivity].
  unfold of_option. destruct (Py.int (Py.strip val)); reflexivity.
Qed.

Lemma get_gas_correction_factor_sent (channel : Z) (m : MKS647B) :
  1 <= channel <= 8 ->
  exists k, (1 <= k <= 5)%nat /\
    snd (get_gas_correction_factor channel m)
    = transmit (repeat ("GC " ++ Py.str channel ++ " R")%string k) m.
Proof.
  intros H. unfold get_gas_correction_factor, bind, py_assert.
  rewrite (check_passes _ _ _ H).
  cbv beta iota. unfold ret at 1. cbv beta iota.
  destruct (iterate_query_sent ("GC " ++ Py.str channel ++ " R") m) as (k & Hk & Heq).
  exists k. split; [exact Hk|].
  destruct (iterate_query _ m) as [[val|e] m1]; simpl in Heq; subst m1; [|reflexivity].
  unfold of_option. destruct (Py.float (Py.strip val)); reflexivity.
Qed.

(** A scaled setpoint is only obtained after the correction factor has been
    queried. *)
Lemma scaled_setpoint_sent (channel : Z) (set_point rf : Q) (m m' : MKS647B) (x : Z) :
  1 <= channel <= 8 ->
  scaled_setpoint channel set_point rf m = (Ok x, m') ->
  exists k, (1 <= k <= 5)%nat /\
    m' = transmit (repeat ("GC " ++ Py.str channel ++ " R")%string k) m.
Proof.
  intros H. unfold scaled_setpoint, bind, of_result.
  destruct (Py.truediv set_point rf) as [q|e]; [|discriminate].
  destruct (get_gas_correction_factor_sent channel m H) as (k & Hk & Heq).
  destruct (get_gas_correction_factor channel m) as [[cf|e] m1]; simpl in Heq;
    subst m1; [|discriminate].
  destruct (Py.truediv q cf); [|discriminate].
  unfold ret. intros E. inversion E. exists k. now split.
Qed.

Lemma transmit_nil (m : MKS647B) : transmit [] m = m.
Proof. unfold transmit. rewrite app_nil_r. now destruct m. Qed.

Lemma scaled_setpoint_only_queries (channel : Z) (set_point rf : Q) (m : MKS647B) :
  exists k, snd (scaled_setpoint channel set_point rf m)
            = transmit (repeat ("GC " ++ Py.str channel ++ " R")%string k) m.
Proof.
  unfold scaled_setpoint, bind, of_result.
  destruct (Py.truediv set_point rf) as [q|e];
    [|exists 0%nat; simpl; now rewrite transmit_nil].
  destruct (Z_le_dec 1 channel) as [H1|H1]; [destruct (Z_le_dec channel 8) as [H8|H8]|].
  - destruct (get_gas_correction_factor_sent channel m (conj H1 H8)) as (k & _ & Heq).
    exists k.
    destruct (get_gas_correction_factor channel m) as [[cf|e] m1]; simpl in Heq;
      subst m1; [|reflexivity].
    destruct (Py.truediv q cf); reflexivity.
  - exists 0%nat. unfold get_gas_correction_factor, bind, py_assert.
    rewrite check_fails by (unfold outside; lia). simpl. now rewrite transmit_nil.
  - exists 0%nat. unfold get_gas_correction_factor, bind, py_assert.
    rewrite check_fails by (unfold outside; lia). simpl. now rewrite transmit_nil.
Qed.

(** The three steps that compute the scaled setpoint transmit nothing but
    the two queries. *)
Lemma setpoint_preamble (channel : Z) (set_point : Q) (m : MKS647B) :
  forall r m',
  bind (get_range channel) (fun code =>
    bind (of_result (range_factor_of_code code)) (fun range_factor =>
      scaled_setpoint channel set_point range_factor)) m = (r, m') ->
  only_queried channel m m'.
Proof.
  intros r m'. unfold bind at 1.
  destruct (Z_le_dec 1 channel) as [H1|H1]; [destruct (Z_le_dec channel 8) as [H8|H8]|].
  - destruct (get_range_sent channel m (conj H1 H8)) as (k1 & _ & Heq).
    destruct (get_range channel m) as [[code|e] m1]; simpl in Heq; subst m1.
    + unfold bind, of_result.
      destruct (range_factor_of_code code) as [rf|e].
      * destruct (scaled_setpoint_only_queries channel set_point rf
                    (transmit (repeat ("RA " ++ Py.str channel ++ " R")%string k1) m))
          as (k2 & Heq).
        destruct (scaled_setpoint _ _ _ _) as [rx m2]. simpl in Heq.
        intros E; inversion E; subst. exists k1, k2. now rewrite transmit_transmit.
      * intros E; inversion E; subst. exists k1, 0%nat. simpl. now rewrite app_nil_r.
    + intros E; inversion E; subst. exists k1, 0%nat. simpl. now rewrite app_nil_r.
  - rewrite get_range_rejects by (unfold outside; lia).
    intros E; inversion E; subst. exists 0%nat, 0%nat. simpl. now rewrite transmit_nil.
  - rewrite get_range_rejects by (unfold outside; lia).
    intros E; inversion E; subst. exists 0%nat, 0%nat. simpl. now rewrite transmit_nil.
Qed.

(** C8, as the code has it.  An out-of-range channel makes every operation
    fail with nothing transmitted (0..8 for the valves, 1..8 elsewhere); so
    do a gas menu outside 0..5 and, for [get_gas_setpoint], a gas set outside
    1..5.  For the two setpoint writers, a scaled setpoint outside 0..1100
    fails the call after the range query and the correction-factor query
    that compute it have gone out, and before the [FS] or [GP] command;
    a gas set outside 1..5 fails [set_gas_setpoint] with nothing but those
    two queries possibly transmitted, the [GP] command never. *)
Theorem out_of_range_arguments_rejected (m : MKS647B) :
  (forall channel, outside 0 8 channel ->
     open_valve channel m = (Raise AssertionError, m) /\
     close_valve channel m = (Raise AssertionError, m)) /\
  (forall gas_set, outside 0 5 gas_set ->
     set_gas_menu gas_set m = (Raise AssertionError, m)) /\
  (forall channel, outside 1 8 channel ->
     get_range channel m = (Raise AssertionError, m) /\
     (forall value unit, set_range channel value unit m = (Raise AssertionError, m)) /\
     get_gas_correction_factor channel m = (Raise AssertionError, m) /\
     get_mode channel m = (Raise AssertionError, m) /\
     get_actual_flow channel m = (Raise AssertionError, m) /\
     Mks647b.get_flow_setpoint channel m = (Raise AssertionError, m) /\
     (forall set_point,
        set_flow_setpoint channel set_point m = (Raise AssertionError, m)) /\
     (forall gas_set,
        get_gas_setpoint channel gas_set m = (Raise AssertionError, m)) /\
     (forall gas_set set_point,
        set_gas_setpoint channel gas_set set_point m = (Raise AssertionError, m))) /\
  (forall channel gas_set, outside 1 5 gas_set ->
     get_gas_setpoint channel gas_set m = (Raise AssertionError, m)) /\
  (forall channel set_point code rf x m1 m2,
     1 <= channel <= 8 ->
     get_range channel m = (Ok code, m1) ->
     range_factor_of_code code = Ok rf ->
     scaled_setpoint channel set_point rf m1 = (Ok x, m2) ->
     outside 0 1100 x ->
     set_flow_setpoint channel set_point m = (Raise AssertionError, m2) /\
     (forall gas_set,
        set_gas_setpoint channel gas_set set_point m = (Raise AssertionError, m2)) /\
     exists k1 k2, (1 <= k1 <= 5)%nat /\ (1 <= k2 <= 5)%nat /\
       m2 = transmit (repeat ("RA " ++ Py.str channel ++ " R")%string k1
                      ++ repeat ("GC " ++ Py.str channel ++ " R")%string k2) m) /\
  (forall channel gas_set set_point, outside 1 5 gas_set ->
     exists e, fst (set_gas_setpoint channel gas_set set_point m) = Raise e /\
     only_queried channel m (snd (set_gas_setpoint channel gas_set set_point m))).
Proof.
  split; [|split; [|split; [|split; [|split]]]].
  - intros channel H. split; [unfold open_valve|unfold close_valve]; rejected H.
  - intros gas_set H. unfold set_gas_menu. rejected H.
  - intros channel H.
    assert (Hr := get_range_rejects channel m H).
    repeat split; intros.
    + exact Hr.
    + unfold set_range. rejected H.
    + unfold get_gas_correction_factor. rejected H.
    + unfold get_mode. rejected H.
    + unfold get_actual_flow. rejected H.
    + unfold Mks647b.get_flow_setpoint. rejected H.
    + unfold set_flow_setpoint, bind. now rewrite Hr.
    + unfold get_gas_setpoint. rejected H.
    + unfold set_gas_setpoint, bind. now rewrite Hr.
  - intros channel gas_set H. unfold get_gas_setpoint, bind, py_assert.
    destruct ((channel >=? 1) && (channel <=? 8)); [|reflexivity].
    cbv beta iota. unfold ret at 1. cbv beta iota.
    now rewrite (check_fails _ _ _ H).
  - intros channel set_point code rf x m1 m2 Hch Hrange Hrf Hx Hout.
    repeat split.
    + unfold set_flow_setpoint, bind. rewrite Hrange. unfold of_result at 1.
      rewrite Hrf, Hx. unfold py_assert. rewrite (check_passes _ _ _ Hch).
      unfold ret at 1. now rewrite (check_fails _ _ _ Hout).
    + intros gas_set. unfold set_gas_setpoint, bind. rewrite Hrange.
      unfold of_result at 1. rewrite Hrf, Hx. unfold py_assert.
      rewrite (check_passes _ _ _ Hch). unfold ret at 1.
      destruct ((gas_set >=? 1) && (gas_set <=? 5)); [|reflexivity].
      unfold ret at 1. now rewrite (check_fails _ _ _ Hout).
    + destruct (get_range_sent channel m Hch) as (k1 & Hk1 & E1).
      rewrite Hrange in E1. simpl in E1.
      destruct (scaled_setpoint_sent channel set_point rf m1 m2 x Hch Hx)
        as (k2 & Hk2 & E2).
      exists k1, k2. repeat split; try lia.
      rewrite E2, E1. now rewrite transmit_transmit.
  - intros channel gas_set set_point H.
    unfold set_gas_setpoint.
    pose proof (setpoint_preamble channel set_point m) as Hpre.
    unfold bind in *.
    destruct (get_range channel m) as [[code|e] m1].
    + destruct (of_result (range_factor_of_code code) m1) as [[rf|e] m1'].
      * destruct (scaled_setpoint channel set_point rf m1') as [[x|e] m2].
        -- specialize (Hpre _ _ eq_refl). unfold py_assert.
           destruct ((channel >=? 1) && (channel <=? 8)).
           ++ unfold ret at 1. rewrite (check_fails _ _ _ H).
              eexists. split; [reflexivity|exact Hpre].
           ++ eexists. split; [reflexivity|exact Hpre].
        -- eexists. split; [reflexivity|exact (Hpre _ _ eq_refl)].
      * eexists. split; [reflexivity|exact (Hpre _ _ eq_refl)].
    + eexists. split; [reflexivity|exact (Hpre _ _ eq_refl)].
Qed.

(** C8 as stated fails: 600 SCCM on a channel ranged 500 SCCM scales to
    1200, and [set_flow_setpoint] rejects it only after two queries have
    been transmitted. *)
Lemma set_flow_setpoint_queries_before_rejecting :
  let m := fresh_mfc bench_mfc in
  fst (scaled_setpoint 1 600 500 (transmit ["RA 1 R"%string] m)) = Ok 1200 /\
  fst (set_flow_setpoint 1 600 m) = Raise AssertionError /\
  inst_sent (snd (set_flow_setpoint 1 600 m)) = ["RA 1 R"; "GC 1 R"]%string /\
  snd (set_flow_setpoint 1 600 m) <> m.
Proof.
  cbv zeta. repeat split; try (vm_compute; reflexivity).
  intros E. apply (f_equal inst_sent) in E. vm_compute in E. discriminate.
Qed.

Lemma out_of_range_arguments_rejected_witness :
  let m := fresh_mfc bench_mfc in
  open_valve 9 m = (Raise AssertionError, m) /\
  set_flow_setpoint 1 600 m
  = (Raise AssertionError, transmit ["RA 1 R"; "GC 1 R"]%string m).
Proof.
  cbv zeta. set (m := fresh_mfc bench_mfc).
  pose proof (out_of_range_arguments_rejected m) as (Tvalve & _ & _ & _ & Tx & _).
  split.
  - apply Tvalve. unfold outside. lia.
  - assert (Hch : 1 <= 1 <= 8) by lia.
    assert (Hrange : get_range 1 m = (Ok 8, transmit ["RA 1 R"%string] m))
      by (vm_compute; reflexivity).
    assert (Hrf : range_factor_of_code 8 = Ok 500%Q)
      by (vm_compute; reflexivity).
    assert (Hx : scaled_setpoint 1 600 500 (transmit ["RA 1 R"%string] m)
                 = (Ok 1200, transmit ["RA 1 R"; "GC 1 R"]%string m))
      by (vm_compute; reflexivity).
    assert (Hout : outside 0 1100 1200) by (unfold outside; lia).
    exact (proj1 (Tx 1 600%Q 8 500%Q 1200 _ _ Hch Hrange Hrf Hx Hout)).
Defined.

(** ** Reasoning about the handlers *)

Section Stable.

Variable R : MainWindow -> MainWindow -> Prop.
Hypothesis R_refl : forall w, R w w.
Hypothesis R_trans : forall a b c, R a b -> R b c -> R a c.

Lemma stable_ret {A} (a : A) : stable R (ret a).
Proof. intros w. apply R_refl. Qed.

Lemma stable_raise {A} (e : exn) : stable R (@raise _ A e).
Proof. intros w. apply R_refl. Qed.

Lemma stable_of_result {A} (r : result A) : stable R (of_result r).
Proof. intros w. apply R_refl. Qed.

Lemma stable_of_option {A} (e : exn) (o : option A) : stable R (of_option e o).
Proof. intros w. destruct o; apply R_refl. Qed.

Lemma stable_gets {A} (attr : MainWindow -> A) : stable R (gets attr).
Proof. intros w. apply R_refl. Qed.

Lemma stable_bind {A B} (c : M MainWindow A) (k : A -> M MainWindow B) :
  stable R c -> (forall a, stable R (k a)) -> stable R (bind c k).
Proof.
  intros Hc Hk w. unfold bind. specialize (Hc w).
  destruct (c w) as [[a|e] w1]; simpl in *; [|exact Hc].
  eapply R_trans; [exact Hc|apply Hk].
Qed.

Lemma stable_try_except {A} (c : M MainWindow A) (h : exn -> M MainWindow A) :
  stable R c -> (forall e, stable R (h e)) -> stable R (try_except c h).
Proof.
  intros Hc Hh w. unfold try_except. specialize (Hc w).
  destruct (c w) as [[a|e] w1]; simpl in *; [exact Hc|].
  eapply R_trans; [exact Hc|apply Hh].
Qed.

Lemma stable_for_each {A} (items : list A) (body : A -> M MainWindow unit) :
  (forall a, stable R (body a)) -> stable R (for_each items body).
Proof.
  intros Hb. induction items as [|a items IH]; simpl.
  - apply stable_ret.
  - apply stable_bind; [apply Hb|intros _; exact IH].
Qed.

Lemma stable_modify (f : MainWindow -> MainWindow) :
  (forall w, R w (f w)) -> stable R (modify f).
Proof. intros H w. apply H. Qed.

Lemma stable_log (line : console_line) :
  (forall v w, R w (with_console v w)) -> stable R (log line).
Proof. intros H w. apply H. Qed.

Lemma stable_on_mfc {A} (c : M MKS647B A) :
  (forall m w, R w (with_mfc m w)) -> stable R (on_mfc c).
Proof. intros H w. unfold on_mfc. destruct (c (mfc w)) as [r m]. apply H. Qed.

Lemma stable_on_furnace {A} (c : M UP150 A) :
  (forall f w, R w (with_furnace f w)) -> stable R (on_furnace c).
Proof. intros H w. unfold on_furnace. destruct (c (furnace w)) as [r f]. apply H. Qed.

End Stable.

Lemma unchanged_refl {T} (attr : MainWindow -> T) (w : MainWindow) :
  unchanged attr w w.
Proof. reflexivity. Qed.

Lemma unchanged_trans {T} (attr : MainWindow -> T) (a b c : MainWindow) :
  unchanged attr a b -> unchanged attr b c -> unchanged attr a c.
Proof. unfold unchanged. congruence. Qed.

(** Decompose a goal [stable R c] along the structure of [c]; what is left
    are the steps that write an attribute [R] depends on. *)
Ltac stable_step Rrefl Rtrans :=
  first [ assumption | lazymatch goal with
  | |- stable _ (bind _ _) => apply (stable_bind _ Rtrans); [|intros ?]
  | |- stable _ (try_except _ _) =>
      apply (stable_try_except _ Rtrans); [|intros ?]
  | |- stable _ (for_each _ _) => apply (stable_for_each _ Rrefl Rtrans); intros ?
  | |- stable _ (ret _) => apply (stable_ret _ Rrefl)
  | |- stable _ (raise _) => apply (stable_raise _ Rrefl)
  | |- stable _ (of_result _) => apply (stable_of_result _ Rrefl)
  | |- stable _ (of_option _ _) => apply (stable_of_option _ Rrefl)
  | |- stable _ (gets _) => apply (stable_gets _ Rrefl)
  | |- stable _ (py_assert _) => unfold py_assert
  | |- stable _ (modify _) => apply stable_modify; intros ?
  | |- stable _ (log _) => apply stable_log; intros ? ?
  | |- stable _ (on_mfc _) => apply stable_on_mfc; intros ? ?
  | |- stable _ (on_furnace _) => apply stable_on_furnace; intros ? ?
  | |- stable _ (if ?b then _ else _) => destruct b
  | |- stable _ (match ?x with _ => _ end) => destruct x
  | |- stable _ (let '(_, _) := ?x in _) => destruct x
  end ].

Ltac stable_tac Rrefl Rtrans := repeat (stable_step Rrefl Rtrans).

(** The attributes each block of [handle_furnace_data] leaves alone. *)
Ltac keeps attr :=
  stable_tac (unchanged_refl attr) (unchanged_trans attr); try reflexivity.

Lemma sync_keeps_labels (d : Snapshot) :
  stable (unchanged modeLabel) (sync_mfc_block d) /\
  stable (unchanged stageLabel) (sync_mfc_block d) /\
  stable (unchanged timeLeftLabel) (sync_mfc_block d).
Proof.
  unfold sync_mfc_block, push_stage_flow. repeat split.
  - keeps modeLabel.
  - keeps stageLabel.
  - keeps timeLeftLabel.
Qed.

Lemma stop_keeps_labels :
  stable (unchanged modeLabel) stop_furnace /\
  stable (unchanged stageLabel) stop_furnace /\
  stable (unchanged timeLeftLabel) stop_furnace.
Proof.
  unfold stop_furnace. repeat split.
  - keeps modeLabel.
  - keeps stageLabel.
  - keeps timeLeftLabel.
Qed.

Lemma post_anneal_keeps_labels (d : Snapshot) :
  stable (unchanged modeLabel) (post_anneal_block d) /\
  stable (unchanged stageLabel) (post_anneal_block d) /\
  stable (unchanged timeLeftLabel) (post_anneal_block d).
Proof.
  unfold post_anneal_block. repeat split.
  - keeps modeLabel.
  - keeps stageLabel.
  - keeps timeLeftLabel.
Qed.

Lemma completion_keeps_labels (d : Snapshot) :
  stable (unchanged modeLabel) (completion_block d) /\
  stable (unchanged stageLabel) (completion_block d) /\
  stable (unchanged timeLeftLabel) (completion_block d).
Proof.
  destruct stop_keeps_labels as (Hm & Hs & Ht).
  unfold completion_block. repeat split.
  - keeps modeLabel; exact Hm.
  - keeps stageLabel; exact Hs.
  - keeps timeLeftLabel; exact Ht.
Qed.

(** What is stable under the last three blocks holds between the state
    the display block leaves and the state the handler leaves. *)
Lemma after_display (R : MainWindow -> MainWindow -> Prop) (d : Snapshot)
  (w w1 : MainWindow) :
  (forall a b c, R a b -> R b c -> R a c) ->
  stable R (sync_mfc_block d) -> stable R (completion_block d) ->
  stable R (post_anneal_block d) ->
  display_block d w = (Ok tt, w1) ->
  R w1 (snd (handle_furnace_data d w)).
Proof.
  intros Rtrans Hs Hc Hp Hd. unfold handle_furnace_data.
  unfold bind at 1. rewrite Hd.
  apply (stable_bind R Rtrans); [exact Hs|intros _].
  apply (stable_bind R Rtrans); [exact Hc|intros _]. exact Hp.
Qed.

(** ** Stage, mode and time left shown for a snapshot *)

Lemma mod2_is_odd (z : Z) : (z mod 2 =? 1) = Z.odd z.
Proof. rewrite Zmod_odd. now destruct (Z.odd z). Qed.

Lemma derive_mode_cases (seg tl : Z) (w : MainWindow) :
  derive_mode seg tl w
  = if seg =? 0 then (Ok ("Resting"%string, tl), w)
    else if Z.odd seg
         then match get_tm_length (seg + 1) (furnace w) with
              | (Ok next_len, f) =>
                  (Ok ("Ramping"%string, tl + next_len), with_furnace f w)
              | (Raise e, f) => (Raise e, with_furnace f w)
              end
         else (Ok ("Holding"%string, tl), w).
Proof.
  unfold derive_mode. destruct (seg =? 0); [reflexivity|].
  rewrite mod2_is_odd. destruct (Z.odd seg); [|reflexivity].
  unfold bind, on_furnace.
  destruct (get_tm_length (seg + 1) (furnace w)) as [[n|e] f]; reflexivity.
Qed.

(** Once the mode is derived nothing in the display block can raise, and
    the labels show the mode, the stage and the time left. *)
Lemma display_block_labels (d : Snapshot) (w w1 : MainWindow) (mode : string)
  (tl : Z) :
  derive_mode (segment d) (time_left d) w = (Ok (mode, tl), w1) ->
  exists w2,
    display_block d w = (Ok tt, w2) /\
    modeLabel w2 = ("Mode: " ++ mode)%string /\
    stageLabel w2
    = ("Current Stage: " ++ Py.str (stage_of_segment (segment d)))%string /\
    timeLeftLabel w2 = ("Stage Time Left: " ++ Py.str tl ++ " min")%string.
Proof.
  intros H. unfold display_block. unfold bind at 1. rewrite H.
  unfold bind, modify, gets, try_except, of_result, log, ret. simpl.
  destruct (heating_in_progress w1);
    destruct (units_of_range_code (range_code d)); simpl;
    eexists; repeat split; reflexivity.
Qed.

Ltac labels_case :=
  try reflexivity; try discriminate; try tauto; try lia;
  try match goal with
      | H : _ /\ _ |- _ => destruct H; (discriminate || congruence)
      | H : _ = _ |- _ => simpl in H; discriminate
      end.


(** ** The blocks of [handle_furnace_data], one by one *)

(** Evaluate the window plumbing of a handler, leaving the driver calls. *)
Ltac run_window :=
  cbv beta iota zeta delta
    [bind ret raise modify gets log try_except on_furnace on_mfc of_result
     fst snd
     with_furnace with_mfc with_stages with_current_stage_index
     with_heating_in_progress with_post_anneal_flow with_buttons_enabled
     with_elapsed_timer_active with_modeLabel with_stageLabel
     with_timeLeftLabel with_setpointLabel with_finish_in_minutes
     with_flowLabel with_temp_values with_console
     furnace mfc stages current_stage_index heating_in_progress
     post_anneal_flow buttons_enabled elapsed_timer_active modeLabel
     stageLabel timeLeftLabel setpointLabel finish_in_minutes flowLabel
     temp_values console].

Lemma set_reset_eq (f : UP150) :
  set_reset f
  = (Ok (link_respond f (link_sent f ++ [reset_frame])), written [reset_frame] f).
Proof. reflexivity. Qed.

(** [stop_furnace] never raises: it resets the furnace, leaves the run
    state idle, and sends the purge commands; the purge flag is raised when
    the flow controller took them. *)
Lemma stop_furnace_outcome (w : MainWindow) :
  exists w',
    stop_furnace w = (Ok tt, w') /\
    furnace w' = written [reset_frame] (furnace w) /\
    current_stage_index w' = -1 /\
    heating_in_progress w' = false /\
    mfc w' = snd (purge_commands (mfc w)) /\
    post_anneal_flow w'
    = (is_ok (fst (purge_commands (mfc w))) || post_anneal_flow w)%bool /\
    length (stages w') = length (stages w).
Proof.
  unfold stop_furnace, purge_commands. rewrite <- (length_map (with_inputs_enabled true)).
  destruct w as [f m st csi h p b t l1 l2 l3 l4 fin l5 tv con].
  run_window. rewrite set_reset_eq. run_window.
  destruct (set_range 1 500 "SCCM" m) as [[[]|e] m1]; run_window.
  - destruct (set_flow_setpoint 1 (inject_Z POST_ANNEAL_FLOW_RATE) m1)
      as [[[]|e] m2]; run_window; eexists; repeat split.
  - eexists; repeat split.
Qed.

Lemma stage_exceeds_iff (seg n : Z) :
  stage_of_segment seg > n <-> seg > 2 * n.
Proof.
  unfold stage_of_segment.
  pose proof (Z.div_mod (seg - 1) 2 ltac:(lia)).
  pose proof (Z.mod_pos_bound (seg - 1) 2 ltac:(lia)). lia.
Qed.

Lemma stage_index_none_iff (seg : Z) :
  stage_index_of_segment seg = -1 <-> seg = 0 \/ seg = -1.
Proof.
  unfold stage_index_of_segment.
  pose proof (Z.div_mod (seg - 1) 2 ltac:(lia)).
  pose proof (Z.mod_pos_bound (seg - 1) 2 ltac:(lia)). lia.
Qed.

Lemma stop_due_dec (d : Snapshot) (w : MainWindow) :
  {stop_due d w} + {~ stop_due d w}.
Proof.
  unfold stop_due, overrun.
  destruct (heating_in_progress w); [|right; intros [H _]; discriminate].
  destruct (Z_gt_dec (segment d) (2 * Z.of_nat (length (stages w)))).
  - left. tauto.
  - destruct (Z.eq_dec (derived_index d) (-1)).
    + destruct (Z.eq_dec (current_stage_index w) (-1)).
      * right. tauto.
      * left. tauto.
    + right. tauto.
Qed.

(** The completion check never raises; it stops the furnace exactly when a
    run is on and the segment is past the recipe or back at none with a
    stage on record, and otherwise changes nothing. *)
Lemma completion_block_outcome (d : Snapshot) (w : MainWindow) :
  exists w',
    completion_block d w = (Ok tt, w') /\
    (stop_due d w ->
     furnace w' = written [reset_frame] (furnace w) /\
     current_stage_index w' = -1 /\
     heating_in_progress w' = false /\
     mfc w' = snd (purge_commands (mfc w)) /\
     post_anneal_flow w'
     = (is_ok (fst (purge_commands (mfc w))) || post_anneal_flow w)%bool /\
     length (stages w') = length (stages w)) /\
    (~ stop_due d w -> w' = w).
Proof.
  unfold completion_block, stop_due, overrun, derived_index.
  unfold bind at 1, gets at 1. cbv beta iota.
  destruct (heating_in_progress w) eqn:Hh.
  2:{ exists w. split; [reflexivity|]. split; [intros [H _]; discriminate|reflexivity]. }
  unfold bind at 1, gets at 1. cbv beta iota.
  unfold bind at 1, gets at 1. cbv beta iota.
  destruct (stop_furnace_outcome w) as (ws & Hs & Hprops).
  destruct (Z.gtb_spec (stage_of_segment (segment d)) (Z.of_nat (length (stages w))))
    as [Hover|Hnot].
  - unfold bind, log, modify. rewrite Hs.
    eexists. split; [reflexivity|]. split.
    + intros _. cbn. destruct ws. exact Hprops.
    + intros H. exfalso. apply H. split; [reflexivity|left].
      apply stage_exceeds_iff. lia.
  - assert (Hno : ~ segment d > 2 * Z.of_nat (length (stages w))).
    { rewrite <- stage_exceeds_iff. lia. }
    destruct (Z.eqb_spec (current_stage_index w) (-1)) as [Hc|Hc];
      destruct (Z.eqb_spec (stage_index_of_segment (segment d)) (-1)) as [Hi|Hi];
      cbn [negb andb].
    + exists w. split; [reflexivity|]. split; [|reflexivity]. intros [_ [H|[_ H]]]; tauto.
    + exists w. split; [reflexivity|]. split; [|reflexivity]. intros [_ [H|[H _]]]; tauto.
    + unfold bind, log, modify. rewrite Hs.
      eexists. split; [reflexivity|]. split.
      * intros _. cbn. destruct ws. exact Hprops.
      * intros H. exfalso. apply H. tauto.
    + exists w. split; [reflexivity|]. split; [|reflexivity]. intros [_ [H|[H _]]]; tauto.
Qed.

Lemma post_anneal_block_eq (d : Snapshot) (w : MainWindow) :
  post_anneal_block d w
  = if (temp d <? 30) && post_anneal_flow w
    then match shutoff_commands (mfc w) with
         | (Ok _, m) =>
             (Ok tt,
              with_console
                (console w
                 ++ [Print "Post-anneal flow turned off due to temperature < 30C"])
                (with_post_anneal_flow false (with_mfc m w)))
         | (Raise e, m) => (Raise e, with_mfc m w)
         end
    else (Ok tt, w).
Proof.
  unfold post_anneal_block, shutoff_commands.
  destruct w as [f m st csi h p b t l1 l2 l3 l4 fin l5 tv con].
  run_window. destruct ((temp d <? 30) && p); [|reflexivity].
  destruct (set_range 1 500 "SCCM" m) as [[[]|e] m1]; [|reflexivity].
  destruct (set_flow_setpoint 1 0 m1) as [[[]|e] m2]; [|reflexivity].
  destruct (close_valve 1 m2) as [[[]|e] m3]; reflexivity.
Qed.

(** The post-anneal block does nothing unless the purge flag is up and the
    snapshot is below 30 degrees; then it sends the shut-off commands and
    lowers the flag once they have all been taken. *)
Lemma post_anneal_block_outcome (d : Snapshot) (w : MainWindow) :
  (~ (temp d < 30 /\ post_anneal_flow w = true) ->
   post_anneal_block d w = (Ok tt, w)) /\
  (temp d < 30 -> post_anneal_flow w = true ->
   fst (post_anneal_block d w) = fst (shutoff_commands (mfc w)) /\
   mfc (snd (post_anneal_block d w)) = snd (shutoff_commands (mfc w)) /\
   post_anneal_flow (snd (post_anneal_block d w))
   = negb (is_ok (fst (shutoff_commands (mfc w))))).
Proof.
  rewrite post_anneal_block_eq. split.
  - intros H. destruct (Z.ltb_spec (temp d) 30); [|reflexivity].
    destruct (post_anneal_flow w); [|reflexivity].
    exfalso. apply H. split; [lia|reflexivity].
  - intros Ht Hp. rewrite Hp. destruct (Z.ltb_spec (temp d) 30); [|lia].
    cbn [andb]. destruct (shutoff_commands (mfc w)) as [[[]|e] m1]; cbn.
    + destruct w; repeat split.
    + destruct w; cbn in *. repeat split. exact Hp.
Qed.

Lemma range_list_split (text : string) :
  In text range_list -> exists rv u, Py.split text = [rv; u].
Proof.
  intros H. unfold range_list in H.
  repeat (destruct H as [<-|H]; [vm_compute; eauto|]). destruct H.
Qed.

Ltac sync_done :=
  eexists; split; [reflexivity|]; split; [reflexivity|]; repeat split.

(** The synchronisation block changes nothing unless the derived stage index
    is new and names a stage; then it sends that stage's range and setpoint
    and records the index, whether or not the flow controller took them. *)
Lemma sync_block_outcome (d : Snapshot) (w : MainWindow) :
  (~ stage_changed d w -> sync_mfc_block d w = (Ok tt, w)) /\
  (stage_changed d w -> ranges_listed w ->
   exists s w',
     nth_error (stages w) (Z.to_nat (derived_index d)) = Some s /\
     sync_mfc_block d w = (Ok tt, w') /\
     mfc w' = snd (stage_commands s (mfc w)) /\
     current_stage_index w' = derived_index d /\
     furnace w' = furnace w /\ stages w' = stages w /\
     heating_in_progress w' = heating_in_progress w /\
     post_anneal_flow w' = post_anneal_flow w).
Proof.
  unfold stage_changed, derived_index, sync_mfc_block.
  set (i := stage_index_of_segment (segment d)). split.
  - intros H. unfold bind at 1, gets at 1. cbv beta iota.
    destruct (Z.eqb_spec (current_stage_index w) i) as [E|E];
      cbn [negb]; [reflexivity|].
    unfold bind at 1, gets at 1. cbv beta iota.
    destruct (Z.leb_spec 0 i); [|reflexivity].
    destruct (Z.ltb_spec i (Z.of_nat (length (stages w)))); [|reflexivity].
    exfalso. apply H. lia.
  - intros [Hne [H0 Hn]] Hwf. unfold bind at 1, gets at 1. cbv beta iota.
    destruct (Z.eqb_spec (current_stage_index w) i) as [E|E]; [tauto|].
    cbn [negb]. unfold bind at 1, gets at 1. cbv beta iota.
    destruct (Z.leb_spec 0 i); [|lia].
    destruct (Z.ltb_spec i (Z.of_nat (length (stages w)))); [|lia].
    cbn [andb].
    destruct (nth_error (stages w) (Z.to_nat i)) as [s|] eqn:Hs.
    2:{ apply nth_error_None in Hs. lia. }
    exists s.
    assert (Hin : In (range_text s) range_list).
    { unfold ranges_listed in Hwf. rewrite Forall_forall in Hwf.
      apply Hwf. eapply nth_error_In. exact Hs. }
    destruct (range_list_split _ Hin) as (rv & u & Hsplit).
    unfold bind at 1, of_option at 1, ret at 1. cbv beta iota.
    unfold stage_commands, get_selected_range, push_stage_flow, get_flow_setpoint.
    rewrite Hsplit.
    destruct w as [f m st csi h p b t l1 l2 l3 l4 fin l5 tv con].
    unfold of_option. run_window.
    destruct (Py.int rv) as [v|]; run_window.
    + destruct (set_range 1 v u m) as [[[]|e] m1]; run_window.
      * destruct (set_flow_setpoint 1 (flow_rate s) m1) as [[[]|e] m2];
          run_window; sync_done.
      * sync_done.
    + sync_done.
Qed.

(** ** What each block leaves alone *)

Lemma display_keeps_run_state (d : Snapshot) :
  stable (unchanged stages) (display_block d) /\
  stable (unchanged current_stage_index) (display_block d) /\
  stable (unchanged heating_in_progress) (display_block d) /\
  stable (unchanged post_anneal_flow) (display_block d) /\
  stable (unchanged mfc) (display_block d).
Proof.
  unfold display_block, derive_mode. repeat split.
  - keeps stages.
  - keeps current_stage_index.
  - keeps heating_in_progress.
  - keeps post_anneal_flow.
  - keeps mfc.
Qed.

Lemma sync_keeps_run_state (d : Snapshot) :
  stable (unchanged furnace) (sync_mfc_block d) /\
  stable (unchanged stages) (sync_mfc_block d) /\
  stable (unchanged heating_in_progress) (sync_mfc_block d) /\
  stable (unchanged post_anneal_flow) (sync_mfc_block d).
Proof.
  unfold sync_mfc_block, push_stage_flow. repeat split.
  - keeps furnace.
  - keeps stages.
  - keeps heating_in_progress.
  - keeps post_anneal_flow.
Qed.

Lemma post_anneal_keeps_run_state (d : Snapshot) :
  stable (unchanged furnace) (post_anneal_block d) /\
  stable (unchanged stages) (post_anneal_block d) /\
  stable (unchanged heating_in_progress) (post_anneal_block d) /\
  stable (unchanged current_stage_index) (post_anneal_block d).
Proof.
  unfold post_anneal_block. repeat split.
  - keeps furnace.
  - keeps stages.
  - keeps heating_in_progress.
  - keeps current_stage_index.
Qed.

(** ** Frames on the furnace link *)

Lemma read_register_sent (frame : string) (f : UP150) :
  snd (read_register frame f) = written [frame] f.
Proof.
  unfold read_register, bind, write_raw, buffer_read, of_result.
  cbv beta iota. now destruct (reply_value _).
Qed.

(** A read of a segment duration writes at most its read request. *)
Lemma get_tm_length_sent (num : Z) (f : UP150) :
  snd (get_tm_length num f) = f \/
  snd (get_tm_length num f)
  = written [read_frame ("02" ++ Py.fmt_02d (28 + num * 2))] f.
Proof.
  unfold get_tm_length, bind, py_assert.
  destruct ((num >=? 1) && (num <=? 16)); [right|left; reflexivity].
  unfold ret at 1. cbv beta iota. apply read_register_sent.
Qed.

Lemma read_frame_not_reset (register : string) :
  read_frame register <> reset_frame.
Proof. unfold read_frame, reset_frame, write_frame. simpl. intros H. inversion H. Qed.

Lemma count_occ_snoc_other (l : list string) (x y : string) :
  x <> y -> count_occ string_dec (l ++ [x]) y = count_occ string_dec l y.
Proof.
  intros H. rewrite count_occ_app. simpl.
  destruct (string_dec x y); [contradiction|lia].
Qed.

Lemma count_occ_snoc_same (l : list string) (y : string) :
  count_occ string_dec (l ++ [y]) y = S (count_occ string_dec l y).
Proof.
  rewrite count_occ_app. simpl. destruct (string_dec y y); [lia|contradiction].
Qed.

Lemma display_keeps_resets (d : Snapshot) :
  stable (unchanged resets) (display_block d).
Proof.
  assert (Hread : forall n, stable (unchanged resets) (on_furnace (get_tm_length n))).
  { intros n w. unfold unchanged, resets, on_furnace.
    pose proof (get_tm_length_sent n (furnace w)) as H.
    destruct (get_tm_length n (furnace w)) as [r f]. simpl in *.
    destruct H as [->| ->]; [reflexivity|]. simpl.
    apply count_occ_snoc_other, read_frame_not_reset. }
  unfold display_block, derive_mode.
  repeat (first [ apply Hread | stable_step (unchanged_refl resets) (unchanged_trans resets) ]);
    reflexivity.
Qed.

(** ** Completion of a run *)

Lemma handler_steps (d : Snapshot) (w w1 : MainWindow) :
  display_block d w = (Ok tt, w1) ->
  handle_furnace_data d w
  = match sync_mfc_block d w1 with
    | (Raise e, w2) => (Raise e, w2)
    | (Ok _, w2) =>
        match completion_block d w2 with
        | (Raise e, w3) => (Raise e, w3)
        | (Ok _, w3) => post_anneal_block d w3
        end
    end.
Proof.
  intros H. unfold handle_furnace_data. unfold bind at 1. rewrite H.
  unfold bind. reflexivity.
Qed.

(** The display block succeeds as soon as its read of the hold duration
    does, and leaves the run state, the stages and the flow controller as
    they were. *)
Lemma display_block_ok (d : Snapshot) (w : MainWindow) :
  (Z.odd (segment d) = true ->
   is_ok (fst (get_tm_length (segment d + 1) (furnace w))) = true) ->
  exists w1,
    display_block d w = (Ok tt, w1) /\
    stages w1 = stages w /\ current_stage_index w1 = current_stage_index w /\
    heating_in_progress w1 = heating_in_progress w /\
    post_anneal_flow w1 = post_anneal_flow w /\ mfc w1 = mfc w /\
    resets w1 = resets w.
Proof.
  intros Hread.
  pose proof (derive_mode_cases (segment d) (time_left d) w) as Hmode.
  assert (Hex : exists mode tl w0,
             derive_mode (segment d) (time_left d) w = (Ok (mode, tl), w0)).
  { destruct (segment d =? 0); [eauto|].
    destruct (Z.odd (segment d)); [|eauto].
    specialize (Hread eq_refl).
    destruct (get_tm_length (segment d + 1) (furnace w)) as [[n|e] f];
      [eauto|discriminate]. }
  destruct Hex as (mode & tl & w0 & Hd).
  destruct (display_block_labels d w w0 mode tl Hd) as (w1 & Hb & _).
  exists w1. split; [exact Hb|].
  destruct (display_keeps_run_state d) as (K1 & K2 & K3 & K4 & K5).
  pose proof (display_keeps_resets d w) as K6.
  specialize (K1 w); specialize (K2 w); specialize (K3 w); specialize (K4 w);
    specialize (K5 w).
  rewrite Hb in *. simpl in *. unfold unchanged in *. tauto.
Qed.

Lemma odd_read_excludes_minus_one (d : Snapshot) (w : MainWindow) :
  (Z.odd (segment d) = true ->
   is_ok (fst (get_tm_length (segment d + 1) (furnace w))) = true) ->
  segment d <> -1.
Proof.
  intros Hread E. rewrite E in Hread. specialize (Hread eq_refl).
  discriminate.
Qed.

Lemma resets_after_reset (w w' : MainWindow) :
  furnace w' = written [reset_frame] (furnace w) -> resets w' = S (resets w).
Proof.
  intros H. unfold resets. rewrite H. simpl. apply count_occ_snoc_same.
Qed.

(** With no run on, a snapshot starts none and resets nothing. *)
Lemma idle_snapshot (d : Snapshot) (w : MainWindow) :
  heating_in_progress w = false ->
  heating_in_progress (snd (handle_furnace_data d w)) = false /\
  resets (snd (handle_furnace_data d w)) = resets w.
Proof.
  set (R := fun a b : MainWindow =>
              heating_in_progress a = false ->
              heating_in_progress b = false /\ resets b = resets a).
  assert (Rrefl : forall a, R a a) by (intros a; unfold R; tauto).
  assert (Rtrans : forall a b c, R a b -> R b c -> R a c).
  { unfold R. intros a b c Hab Hbc Ha. destruct (Hab Ha) as [Hb Hr].
    destruct (Hbc Hb) as [Hc Hr']. split; congruence. }
  assert (Hdisp : stable R (display_block d)).
  { intros a Ha. destruct (display_keeps_run_state d) as (_ & _ & K & _).
    rewrite (K a). split; [exact Ha|]. apply display_keeps_resets. }
  assert (Hsync : stable R (sync_mfc_block d)).
  { intros a Ha. destruct (sync_keeps_run_state d) as (Kf & _ & Kh & _).
    rewrite (Kh a). split; [exact Ha|]. unfold resets. now rewrite (Kf a). }
  assert (Hcomp : stable R (completion_block d)).
  { intros a Ha. destruct (completion_block_outcome d a) as (a' & E & _ & Hno).
    rewrite E. simpl. rewrite Hno; [tauto|].
    intros [Hh _]. congruence. }
  assert (Hpost : stable R (post_anneal_block d)).
  { intros a Ha. destruct (post_anneal_keeps_run_state d) as (Kf & _ & Kh & _).
    rewrite (Kh a). split; [exact Ha|]. unfold resets. now rewrite (Kf a). }
  intros Hw. apply (stable_bind R Rtrans (display_block d)); [exact Hdisp| |exact Hw].
  intros _. apply (stable_bind R Rtrans); [exact Hsync|intros _].
  apply (stable_bind R Rtrans); [exact Hcomp|intros _]. exact Hpost.
Qed.

Lemma idle_polls (ds : list Snapshot) : forall w,
  heating_in_progress w = false -> resets (polled ds w) = resets w.
Proof.
  induction ds as [|d ds IH]; intros w Hw; [reflexivity|].
  simpl. destruct (idle_snapshot d w Hw) as [Hh Hr].
  unfold polled in IH. rewrite IH by exact Hh. exact Hr.
Qed.





(** ** Reconfiguration of the flow controller by a snapshot *)

Lemma stop_due_transfer (d : Snapshot) (w w1 : MainWindow) :
  stages w1 = stages w -> current_stage_index w1 = current_stage_index w ->
  heating_in_progress w1 = heating_in_progress w ->
  (stop_due d w1 <-> stop_due d w).
Proof.
  intros Hs Hc Hh. unfold stop_due, overrun. rewrite Hs, Hc, Hh. tauto.
Qed.

Lemma stop_due_iff (d : Snapshot) (w : MainWindow) :
  segment d <> -1 ->
  (stop_due d w <->
   heating_in_progress w = true /\ (overrun d w \/ wrapped d w)).
Proof.
  intros Hm. unfold stop_due, wrapped, derived_index.
  rewrite stage_index_none_iff. tauto.
Qed.

Lemma stage_changed_excludes_stop (d : Snapshot) (w : MainWindow) :
  stage_changed d w -> ~ stop_due d w.
Proof.
  unfold stage_changed, stop_due, overrun, derived_index.
  intros [_ [H0 Hn]] [_ [Ho|[Hi _]]]; [|lia].
  apply stage_exceeds_iff in Ho.
  unfold stage_of_segment, stage_index_of_segment in *. lia.
Qed.




(** ** The post-anneal shut-off *)

Lemma flag_stays_refl (a : MainWindow) : flag_stays a a.
Proof. unfold flag_stays. tauto. Qed.

Lemma flag_stays_trans (a b c : MainWindow) :
  flag_stays a b -> flag_stays b c -> flag_stays a c.
Proof. unfold flag_stays. tauto. Qed.

Ltac flag_tac :=
  stable_tac flag_stays_refl flag_stays_trans;
  try (unfold flag_stays; cbn; tauto).

Lemma stop_keeps_flag : stable flag_stays stop_furnace.
Proof. unfold stop_furnace. flag_tac. Qed.

Lemma start_keeps_flag : stable flag_stays start_furnace.
Proof. unfold start_furnace, program_stage, clear_segment. flag_tac. Qed.

Lemma recipe_edits_keep_flag (ui : StageForm) :
  stable flag_stays (add_stage ui) /\
  stable flag_stays remove_stage /\
  forall filename file, stable flag_stays (load_recipe ui filename file).
Proof.
  assert (Ha : stable flag_stays (add_stage ui)) by (unfold add_stage; flag_tac).
  assert (Hr : stable flag_stays remove_stage) by (unfold remove_stage; flag_tac).
  repeat split; try assumption.
  intros filename file. unfold load_recipe, load_stage, on_last_stage. flag_tac.
Qed.

(** A snapshot at 30 degrees or more never lowers the flag. *)
Lemma warm_snapshot_keeps_flag (d : Snapshot) :
  30 <= temp d -> stable flag_stays (handle_furnace_data d).
Proof.
  intros Ht. unfold handle_furnace_data.
  apply (stable_bind _ flag_stays_trans).
  { intros w Hw. destruct (display_keeps_run_state d) as (_ & _ & _ & K & _).
    rewrite (K w). exact Hw. }
  intros _. apply (stable_bind _ flag_stays_trans).
  { intros w Hw. destruct (sync_keeps_run_state d) as (_ & _ & _ & K).
    rewrite (K w). exact Hw. }
  intros _. apply (stable_bind _ flag_stays_trans).
  { unfold completion_block. pose proof stop_keeps_flag. flag_tac. }
  intros _ w Hw. destruct (post_anneal_block_outcome d w) as [Hskip _].
  rewrite Hskip by lia. exact Hw.
Qed.

(** A snapshot of the furnace at rest, taken in the post-anneal state. *)
Lemma resting_snapshot_in_post_anneal (d : Snapshot) (w : MainWindow) :
  in_post_anneal w -> segment d = 0 ->
  let w' := snd (handle_furnace_data d w) in
  (30 <= temp d -> mfc w' = mfc w /\ in_post_anneal w') /\
  (temp d < 30 ->
   mfc w' = snd (shutoff_commands (mfc w)) /\
   post_anneal_flow w' = negb (is_ok (fst (shutoff_commands (mfc w)))) /\
   heating_in_progress w' = false /\ current_stage_index w' = -1).
Proof.
  intros (Hp & Hh & Hc) Hseg w'.
  assert (Hread : Z.odd (segment d) = true ->
            is_ok (fst (get_tm_length (segment d + 1) (furnace w))) = true)
    by (rewrite Hseg; discriminate).
  destruct (display_block_ok d w Hread) as (w1 & Hd & Ks & Kc & Kh & Kp & Km & Kr).
  pose proof (handler_steps d w w1 Hd) as Hsteps.
  destruct (sync_block_outcome d w1) as [Hsame _].
  assert (Hns : ~ stage_changed d w1).
  { unfold stage_changed, derived_index. rewrite Hseg. vm_compute. tauto. }
  destruct (completion_block_outcome d w1) as (w3 & Hcomp & _ & Hstay).
  assert (Hnd : ~ stop_due d w1) by (intros [H _]; congruence).
  rewrite (Hsame Hns), Hcomp, (Hstay Hnd) in Hsteps.
  destruct (post_anneal_keeps_run_state d) as (_ & _ & Ph & Pc).
  destruct (post_anneal_block_outcome d w1) as [Hskip Hshut].
  unfold w'. rewrite Hsteps. split.
  - intros Ht. rewrite Hskip by lia. simpl. unfold in_post_anneal.
    repeat split; congruence.
  - intros Ht. destruct (Hshut Ht ltac:(congruence)) as (_ & Hm & Hf).
    rewrite Hm, Hf, (Ph w1), (Pc w1), Km. repeat split; congruence.
Qed.



(** ** Programming the furnace on start *)

Lemma written_written (a b : list string) (f : UP150) :
  written b (written a f) = written (a ++ b) f.
Proof. unfold written; simpl. now rewrite app_assoc. Qed.

Lemma written_nil (f : UP150) : written [] f = f.
Proof. unfold written. rewrite app_nil_r. now destruct f. Qed.

Lemma set_sp_setpoint_ok (num temp : Z) (f : UP150) :
  1 <= num <= 16 -> 0 <= temp <= 1200 ->
  exists reply,
    set_sp_setpoint num temp f
    = (Ok reply, written [sp_setpoint_frame num temp] f).
Proof.
  intros Hn Ht. unfold set_sp_setpoint, bind, py_assert.
  rewrite (check_passes _ _ _ Hn). unfold ret at 1. cbv beta iota.
  rewrite (check_passes _ _ _ Ht). unfold ret at 1. cbv beta iota.
  eexists. reflexivity.
Qed.

Lemma set_tm_length_ok (num length : Z) (f : UP150) :
  1 <= num <= 16 ->
  exists reply,
    set_tm_length num length f
    = (Ok reply, written [tm_length_frame num length] f).
Proof.
  intros Hn. unfold set_tm_length, bind, py_assert.
  rewrite (check_passes _ _ _ Hn). unfold ret at 1. cbv beta iota.
  eexists. reflexivity.
Qed.

Ltac step_sp Ht :=
  match goal with
  | |- context [set_sp_setpoint ?n ?t ?f] =>
      let r := fresh "r" in
      destruct (set_sp_setpoint_ok n t f ltac:(lia) Ht) as (r & ->); run_window
  end.

Ltac step_tm :=
  match goal with
  | |- context [set_tm_length ?n ?t ?f] =>
      let r := fresh "r" in
      destruct (set_tm_length_ok n t f ltac:(lia)) as (r & ->); run_window
  end.

Lemma programmed_trans (a b : list string) (w w1 w2 : MainWindow) :
  programmed a w w1 -> programmed b w1 w2 -> programmed (a ++ b) w w2.
Proof.
  unfold programmed. intros (F1 & M1 & S1 & H1) (F2 & M2 & S2 & H2).
  rewrite F2, F1, written_written. repeat split; congruence.
Qed.

Lemma length_update_nth {A} (f : A -> A) (l : list A) : forall i,
  length (update_nth i f l) = length l.
Proof.
  induction l as [|x l IH]; intros [|i]; simpl; try reflexivity.
  now rewrite IH.
Qed.

Lemma program_stage_ok (i : Z) (s : StageWidget) (w : MainWindow) :
  0 <= i <= 7 -> 0 <= temperature s <= 1200 ->
  exists w', program_stage i s w = (Ok tt, w') /\
             programmed (stage_frames i s) w w'.
Proof.
  intros Hi Ht. unfold program_stage.
  replace (i * 2 + 1) with (2 * i + 1) by lia.
  replace (i * 2 + 2) with (2 * i + 2) by lia.
  destruct w as [f m st csi h p b t l1 l2 l3 l4 fin l5 tv con].
  run_window.
  step_sp Ht. step_sp Ht. step_tm. step_tm.
  eexists. split; [reflexivity|]. unfold programmed, stage_frames. simpl.
  rewrite !written_written, length_update_nth. simpl. repeat split.
Qed.

Lemma clear_segment_ok (seg : Z) (w : MainWindow) :
  1 <= seg <= 16 ->
  exists w', clear_segment seg w = (Ok tt, w') /\
             programmed (clear_frames seg) w w'.
Proof.
  intros Hs. unfold clear_segment.
  destruct w as [f m st csi h p b t l1 l2 l3 l4 fin l5 tv con].
  run_window.
  assert (H0 : 0 <= 0 <= 1200) by lia.
  step_sp H0. step_tm.
  eexists. split; [reflexivity|]. unfold programmed, clear_frames. simpl.
  rewrite !written_written. simpl. repeat split.
Qed.

(** A loop whose every iteration succeeds and writes its frames. *)
Lemma for_each_programmed {A} (body : A -> M MainWindow unit)
  (frames : A -> list string) (good : A -> Prop) :
  (forall a w, good a ->
     exists w', body a w = (Ok tt, w') /\ programmed (frames a) w w') ->
  forall items w, Forall good items ->
    exists w', for_each items body w = (Ok tt, w') /\
               programmed (flat_map frames items) w w'.
Proof.
  intros Hbody. induction items as [|a items IH]; intros w Hall.
  - exists w. split; [reflexivity|]. unfold programmed. simpl.
    rewrite written_nil. tauto.
  - inversion Hall as [|? ? Ha Hrest]; subst.
    destruct (Hbody a w Ha) as (w1 & E1 & P1).
    destruct (IH w1 Hrest) as (w2 & E2 & P2).
    exists w2. simpl. unfold bind. rewrite E1, E2. split; [reflexivity|].
    eapply programmed_trans; eassumption.
Qed.

Lemma py_range_bounds (lo hi x : Z) : In x (py_range lo hi) <-> lo <= x < hi.
Proof.
  unfold py_range. rewrite in_map_iff. split.
  - intros (k & <- & Hk). apply in_seq in Hk. lia.
  - intros H. exists (Z.to_nat (x - lo)). split; [lia|]. apply in_seq. lia.
Qed.

Lemma enumerate_bounds {A} (items : list A) (i : Z) (a : A) :
  In (i, a) (enumerate items) ->
  0 <= i < Z.of_nat (length items) /\ In a items.
Proof.
  unfold enumerate. intros H. split.
  - apply in_combine_l in H. apply py_range_bounds in H. lia.
  - apply in_combine_r in H. exact H.
Qed.

Lemma set_start_setpoint_ok (f : UP150) :
  exists reply,
    set_start_setpoint default_start_setpoint f
    = (Ok reply, written [start_setpoint_frame 25] f).
Proof. eexists. reflexivity. Qed.

Lemma set_run_ok (f : UP150) :
  exists reply, set_run f = (Ok reply, written [run_frame] f).
Proof. eexists. reflexivity. Qed.

Lemma open_valve_sent (m : MKS647B) :
  exists k, (1 <= k <= 5)%nat /\
    snd (open_valve 1 m) = transmit (repeat "ON 1"%string k) m.
Proof.
  unfold open_valve, bind, py_assert. simpl.
  destruct (iterate_query_sent "ON 1" m) as (k & Hk & E).
  exists k. split; [exact Hk|].
  change (Py.str 1) with "1"%string. simpl append.
  destruct (iterate_query "ON 1" m) as [[v|e] m1]; simpl in *; exact E.
Qed.



(** ** Construction of the main window *)

Lemma swr_snoc (cs log : list string) (c : string) (k : nat) :
  (1 <= k <= 5)%nat -> sent_with_retries cs log ->
  sent_with_retries (cs ++ [c]) (log ++ repeat c k).
Proof.
  intros Hk H. induction H as [|c0 cs0 k0 log0 Hk0 H IH]; simpl.
  - rewrite <- (app_nil_r (repeat c k)). now apply swr_cons, swr_nil.
  - rewrite <- app_assoc. now apply swr_cons.
Qed.

Lemma bind_ok {S A B} (c : M S A) (k : A -> M S B) (s s' : S) (b : B) :
  bind c k s = (Ok b, s') ->
  exists a s1, c s = (Ok a, s1) /\ k a s1 = (Ok b, s').
Proof.
  unfold bind. destruct (c s) as [[a|e] s1]; [eauto|discriminate].
Qed.

Lemma on_mfc_ok {A} (c : M MKS647B A) (w w' : MainWindow) (a : A) :
  on_mfc c w = (Ok a, w') ->
  exists m', c (mfc w) = (Ok a, m') /\ w' = with_mfc m' w.
Proof.
  unfold on_mfc. destruct (c (mfc w)) as [r m']. intros E. inversion E; subst.
  eauto.
Qed.

(** A query that returns went out between one and five times. *)
Lemma iterate_query_ok (command : string) (m m' : MKS647B) (v : string) :
  iterate_query command m = (Ok v, m') ->
  exists k, (1 <= k <= 5)%nat /\ m' = transmit (repeat command k) m.
Proof.
  intros E. destruct (iterate_query_sent command m) as (k & Hk & Hs).
  rewrite E in Hs. eauto.
Qed.

(** A command that was taken went out, between one and five times. *)
Lemma command_ok (check : bool) (command : string) (m m' : MKS647B) :
  bind (py_assert check)
    (fun _ => bind (iterate_query command) (fun _ => ret tt)) m = (Ok tt, m') ->
  exists k, (1 <= k <= 5)%nat /\ m' = transmit (repeat command k) m.
Proof.
  intros E. apply bind_ok in E. destruct E as ([] & m1 & E1 & E2).
  unfold py_assert in E1. destruct check; [|discriminate].
  inversion E1; subst m1.
  apply bind_ok in E2. destruct E2 as (v & m2 & E2 & E3).
  inversion E3; subst. now apply iterate_query_ok in E2.
Qed.

Lemma set_range_ok (channel value : Z) (unit : string) (m m' : MKS647B) :
  set_range channel value unit m = (Ok tt, m') ->
  exists code k,
    dict_get String.eqb RANGE_DICT (Py.str value ++ " " ++ unit)%string = Some code /\
    (1 <= k <= 5)%nat /\
    m' = transmit
           (repeat ("RA " ++ Py.str channel ++ " " ++ Py.fmt_02d code)%string k) m.
Proof.
  unfold set_range. intros E.
  apply bind_ok in E. destruct E as ([] & m1 & E1 & E).
  unfold py_assert in E1.
  destruct ((channel >=? 1) && (channel <=? 8)); [|discriminate].
  inversion E1; subst m1.
  apply bind_ok in E. destruct E as (code & m1 & E1' & E).
  unfold of_option in E1'.
  destruct (dict_get String.eqb RANGE_DICT _) as [c|]; [|discriminate].
  inversion E1'; subst.
  apply command_ok in E. destruct E as (k & Hk & E). eauto.
Qed.

Lemma round_zero (q : Q) : Qnum q = 0 -> Py.round q = 0.
Proof. destruct q as [n d]. simpl. intros ->. reflexivity. Qed.

(** Setpoint 0 scales to 0 whatever the range and the correction factor. *)
Lemma scaled_zero (channel : Z) (rf : Q) (m m' : MKS647B) (x : Z) :
  scaled_setpoint channel 0 rf m = (Ok x, m') -> x = 0.
Proof.
  unfold scaled_setpoint. intros E.
  apply bind_ok in E. destruct E as (q & m1 & E1 & E).
  unfold of_result, Py.truediv in E1.
  destruct (Qeq_bool rf 0); [discriminate|]. inversion E1; subst.
  apply bind_ok in E. destruct E as (cf & m2 & _ & E).
  apply bind_ok in E. destruct E as (q' & m3 & E3 & E).
  unfold of_result, Py.truediv in E3.
  destruct (Qeq_bool cf 0); [discriminate|]. inversion E3; subst.
  inversion E; subst. apply round_zero. reflexivity.
Qed.

Lemma set_flow_setpoint_zero_ok (m m' : MKS647B) :
  set_flow_setpoint 1 0 m = (Ok tt, m') ->
  exists k1 k2 k3, (1 <= k1 <= 5)%nat /\ (1 <= k2 <= 5)%nat /\ (1 <= k3 <= 5)%nat /\
    m' = transmit (repeat "RA 1 R"%string k1 ++ repeat "GC 1 R"%string k2
                   ++ repeat "FS 1 0000"%string k3) m.
Proof.
  unfold set_flow_setpoint. intros E.
  apply bind_ok in E. destruct E as (code & m1 & E1 & E).
  apply bind_ok in E. destruct E as (rf & m1' & E2 & E).
  unfold of_result in E2. inversion E2; subst m1'. clear E2.
  apply bind_ok in E. destruct E as (x & m2 & E3 & E).
  pose proof (scaled_zero _ _ _ _ _ E3) as ->.
  destruct (get_range_sent 1 m ltac:(lia)) as (k1 & Hk1 & S1).
  rewrite E1 in S1. simpl in S1.
  destruct (scaled_setpoint_sent 1 0 rf m1 m2 0 ltac:(lia) E3) as (k2 & Hk2 & S2).
  apply bind_ok in E. destruct E as ([] & m3 & E4 & E).
  inversion E4; subst m3.
  apply command_ok in E. destruct E as (k3 & Hk3 & S3).
  exists k1, k2, k3. repeat split; try lia.
  rewrite S3, S2, S1, !transmit_transmit. reflexivity.
Qed.

(** C10.  When [MainWindow()] completes, the flow controller has been sent,
    in this order and each possibly repeated by the retry loop: the range
    commands of the driver's constructor; the range query, the
    correction-factor query and setpoint 0 for channel 1; gas menu 0; the
    open-valve commands of channel 1 and of the main valve (channel 0).
    The window built is idle: no run on, no purge flag, no stage, so the
    valves are open before any start. *)
Theorem init_opens_valves_while_idle
  (furnace_respond mfc_respond : list string -> string) :
  fst (init furnace_respond mfc_respond) = Ok tt ->
  let w := snd (init furnace_respond mfc_respond) in
  sent_with_retries
    ["RA 1 09"; "RA 2 09"; "RA 3 09"; "RA 4 09";
     "RA 1 R"; "GC 1 R"; "FS 1 0000"; "GM 0"; "ON 1"; "ON 0"]%string
    (inst_sent (mfc w)) /\
  heating_in_progress w = false /\ post_anneal_flow w = false /\
  current_stage_index w = -1 /\ stages w = [].
Proof.
  intros Hok w. unfold w. clear w.
  destruct (init furnace_respond mfc_respond) as [r w] eqn:E.
  simpl in Hok. subst r. simpl.
  unfold init, init_devices in E.
  set (w0 := fresh_window furnace_respond mfc_respond) in E.
  apply bind_ok in E. destruct E as ([] & w1 & E1 & E).
  assert (F1 : exists f, w1 = with_furnace f w0).
  { unfold on_furnace in E1. destruct (Up150.init_steps (furnace w0)) as [r f].
    inversion E1. eauto. }
  destruct F1 as (f & ->). clear E1.
  (* the constructor of the driver *)
  apply bind_ok in E. destruct E as ([] & w2 & E2 & E).
  apply on_mfc_ok in E2. destruct E2 as (m2 & E2 & ->).
  unfold Mks647b.init_steps in E2. simpl in E2.
  apply bind_ok in E2. destruct E2 as ([] & n1 & R1 & E2).
  apply bind_ok in E2. destruct E2 as ([] & n2 & R2 & E2).
  apply bind_ok in E2. destruct E2 as ([] & n3 & R3 & E2).
  apply bind_ok in E2. destruct E2 as ([] & n4 & R4 & E2).
  inversion E2; subst n4. clear E2.
  apply set_range_ok in R1, R2, R3, R4.
  destruct R1 as (c1 & k1 & D1 & Hk1 & ->).
  destruct R2 as (c2 & k2 & D2 & Hk2 & ->).
  destruct R3 as (c3 & k3 & D3 & Hk3 & ->).
  destruct R4 as (c4 & k4 & D4 & Hk4 & ->).
  vm_compute in D1, D2, D3, D4.
  inversion D1; inversion D2; inversion D3; inversion D4; subst c1 c2 c3 c4.
  clear D1 D2 D3 D4.
  (* the initial settings *)
  apply bind_ok in E. destruct E as ([] & w3 & E3 & E).
  apply on_mfc_ok in E3. destruct E3 as (m3 & E3 & ->).
  apply set_flow_setpoint_zero_ok in E3.
  destruct E3 as (j1 & j2 & j3 & Hj1 & Hj2 & Hj3 & ->).
  apply bind_ok in E. destruct E as ([] & w4 & E4 & E).
  apply on_mfc_ok in E4. destruct E4 as (m4 & E4 & ->).
  apply command_ok in E4. destruct E4 as (g & Hg & ->).
  apply bind_ok in E. destruct E as ([] & w5 & E5 & E).
  apply on_mfc_ok in E5. destruct E5 as (m5 & E5 & ->).
  apply command_ok in E5. destruct E5 as (v1 & Hv1 & ->).
  apply on_mfc_ok in E. destruct E as (m6 & E6 & ->).
  apply command_ok in E6. destruct E6 as (v0 & Hv0 & ->).
  split; [|repeat split].
  simpl. rewrite <- !app_assoc.
  repeat (apply swr_cons; [assumption|]).
  rewrite <- (app_nil_r (repeat _ v0)). apply swr_cons; [assumption|apply swr_nil].
Qed.

Lemma init_opens_valves_while_idle_witness :
  let w := snd (init bench_furnace bench_mfc) in
  sent_with_retries
    ["RA 1 09"; "RA 2 09"; "RA 3 09"; "RA 4 09";
     "RA 1 R"; "GC 1 R"; "FS 1 0000"; "GM 0"; "ON 1"; "ON 0"]%string
    (inst_sent (mfc w)) /\
  heating_in_progress w = false.
Proof.
  cbv zeta.
  assert (H : fst (init bench_furnace bench_mfc) = Ok tt)
    by (vm_compute; reflexivity).
  destruct (init_opens_valves_while_idle bench_furnace bench_mfc H)
    as (Hs & Hh & _).
  split; assumption.
Defined.

(** ** Scaling of setpoints *)

Section Scaling.

Local Open Scope Q_scope.

Lemma round_error (q : Q) : Qabs (inject_Z (Py.round q) - q) <= 1 # 2.
Proof.
  unfold Py.round.
  pose proof (Qfloor_le q) as Hlo. pose proof (Qlt_floor q) as Hhi.
  rewrite inject_Z_plus in Hhi. change (inject_Z 1) with 1 in Hhi.
  set (f := Qfloor q) in *.
  apply Qabs_Qle_condition.
  destruct (Qcompare (q - inject_Z f) (1 # 2)) eqn:E.
  - apply Qeq_alt in E.
    destruct (Z.even f); [|rewrite inject_Z_plus; change (inject_Z 1) with 1]; lra.
  - apply Qlt_alt in E. lra.
  - apply Qgt_alt in E. rewrite inject_Z_plus; change (inject_Z 1) with 1. lra.
Qed.

Lemma round3_error (q : Q) : Qabs (Py.round3 q - q) <= 1 # 2000.
Proof.
  unfold Py.round3.
  pose proof (round_error (q * 1000)) as H.
  apply Qabs_Qle_condition in H. apply Qabs_Qle_condition.
  assert (E : Py.round (q * 1000) # 1000 == inject_Z (Py.round (q * 1000)) / 1000).
  { unfold Qdiv, Qmult, Qinv, Qeq, inject_Z; simpl. lia. }
  rewrite E. set (r := inject_Z (Py.round (q * 1000))) in *.
  split.
  - apply Qle_minus_iff. 
    setoid_replace (r / 1000 - q + - - (1 # 2000)) with ((r - q * 1000 + (1#2)) / 1000) by field.
    apply Qle_shift_div_l; lra.
  - apply Qle_minus_iff. 
    setoid_replace ((1 # 2000) + - (r / 1000 - q)) with (((1#2) - (r - q * 1000)) / 1000) by field.
    apply Qle_shift_div_l; lra.
Qed.

(** The driver computes the scaled setpoint with [to_device], from the
    correction factor it has just queried. *)
Lemma scaled_setpoint_value (channel : Z) (set_point rf : Q) (m m' : MKS647B)
  (x : Z) :
  scaled_setpoint channel set_point rf m = (Ok x, m') ->
  exists cf, fst (get_gas_correction_factor channel m) = Ok cf /\
             ~ cf == 0 /\ x = to_device set_point rf cf.
Proof.
  unfold scaled_setpoint. intros E.
  apply bind_ok in E. destruct E as (q & m1 & E1 & E).
  unfold of_result, Py.truediv in E1.
  destruct (Qeq_bool rf 0); [discriminate|]. inversion E1; subst.
  apply bind_ok in E. destruct E as (cf & m2 & E2 & E).
  apply bind_ok in E. destruct E as (q' & m3 & E3 & E).
  unfold of_result, Py.truediv in E3.
  destruct (Qeq_bool cf 0) eqn:Hz; [discriminate|]. inversion E3; subst.
  inversion E; subst. exists cf. rewrite E2. repeat split.
  intros H. apply Qeq_bool_iff in H. congruence.
Qed.


End Scaling.



(** ** Loading a recipe *)

Section LoadRecipe.

Variable ui : StageForm.

Lemma with_stages_twice (a b : list StageWidget) (w : MainWindow) :
  with_stages a (with_stages b w) = with_stages a w.
Proof. now destruct w. Qed.

Lemma with_stages_same (w : MainWindow) : with_stages (stages w) w = w.
Proof. now destruct w. Qed.

Lemma update_nth_twice {A} (f g : A -> A) (l : list A) : forall i,
  update_nth i g (update_nth i f l) = update_nth i (fun x => g (f x)) l.
Proof.
  induction l as [|x l IH]; intros [|i]; simpl; try reflexivity.
  now rewrite IH.
Qed.

Lemma length_update_stage_labels (all : list StageWidget) :
  length (update_stage_labels all) = length all.
Proof.
  unfold update_stage_labels, enumerate, py_range.
  rewrite length_map, length_combine, length_map, length_seq.
  rewrite Z.sub_0_r, Nat2Z.id. apply Nat.min_id.
Qed.

(** An update of the last stage of a non-empty list. *)
Lemma on_last_stage_eq (f : StageWidget -> StageWidget) (w : MainWindow) :
  stages w <> [] ->
  on_last_stage f w
  = (Ok tt, with_stages (update_nth (length (stages w) - 1) f (stages w)) w).
Proof.
  intros H. unfold on_last_stage, bind, gets, modify.
  destruct (stages w); [contradiction|reflexivity].
Qed.

Lemma add_stage_eq (w : MainWindow) :
  add_stage ui w
  = (Ok tt,
     with_stages (if Z.of_nat (length (stages w)) >=? 8 then stages w
                  else update_stage_labels (stages w ++ [new_stage ui])) w).
Proof.
  unfold add_stage, bind, gets, modify, ret.
  destruct (Z.of_nat (length (stages w)) >=? 8); [|reflexivity].
  now rewrite with_stages_same.
Qed.

Lemma after_add_not_empty (all : list StageWidget) :
  (if Z.of_nat (length all) >=? 8 then all
   else update_stage_labels (all ++ [new_stage ui])) <> [].
Proof.
  destruct (Z.geb_spec (Z.of_nat (length all)) 8) as [H|H].
  - intros ->. simpl in H. lia.
  - intros E. apply (f_equal (@length _)) in E.
    rewrite length_update_stage_labels, length_app in E. simpl in E. lia.
Qed.

Lemma update_nth_id {A} (l : list A) : forall i,
  update_nth i (fun x => x) l = l.
Proof.
  induction l as [|x l IH]; intros [|i]; simpl; try reflexivity.
  now rewrite IH.
Qed.

Lemma stages_with_stages (l : list StageWidget) (w : MainWindow) :
  stages (with_stages l w) = l.
Proof. now destruct w. Qed.

Section LastStage.

Variable all' : list StageWidget.
Variable w : MainWindow.
Hypothesis not_empty : all' <> [].

Lemma lastly_start : with_stages all' w = lastly all' w (fun x => x).
Proof. unfold lastly. now rewrite update_nth_id. Qed.

Lemma lastly_last (f F : StageWidget -> StageWidget) :
  on_last_stage f (lastly all' w F)
  = (Ok tt, lastly all' w (fun x => f (F x))).
Proof.
  rewrite on_last_stage_eq.
  - unfold lastly. rewrite stages_with_stages, length_update_nth,
      update_nth_twice, with_stages_twice. reflexivity.
  - unfold lastly. rewrite stages_with_stages. intros E.
    apply (f_equal (@length _)) in E. rewrite length_update_nth in E.
    destruct all'; [contradiction|discriminate].
Qed.

Lemma lastly_step {A} (f F : StageWidget -> StageWidget)
  (k : unit -> M MainWindow A) :
  bind (on_last_stage f) k (lastly all' w F)
  = k tt (lastly all' w (fun x => f (F x))).
Proof. unfold bind. now rewrite lastly_last. Qed.

Lemma length_lastly (F : StageWidget -> StageWidget) :
  length (stages (lastly all' w F)) = length all'.
Proof. unfold lastly. now rewrite stages_with_stages, length_update_nth. Qed.

End LastStage.

Lemma pure_step {S A B} (r : result A) (k : A -> M S B) (s : S) :
  bind (of_result r) k s
  = match r with Ok a => k a s | Raise e => (Raise e, s) end.
Proof. unfold bind, of_result. now destruct r. Qed.

(** One record read without error: the list grows by [load_one]. *)
Lemma load_stage_ok (stage_data : json) (f : StageFields) (w : MainWindow) :
  read_fields stage_data = Ok f ->
  load_stage ui stage_data w
  = (Ok tt, with_stages (load_one ui (stages w) f) w).
Proof.
  intros H. unfold read_fields in H. unfold load_stage.
  unfold bind at 1. rewrite add_stage_eq.
  pose proof (after_add_not_empty (stages w)) as Hne.
  unfold load_one.
  set (all' := if Z.of_nat (length (stages w)) >=? 8 then stages w
               else update_stage_labels (stages w ++ [new_stage ui])) in *.
  rewrite (lastly_start all' w).
  repeat first
    [ rewrite (lastly_step all' w Hne)
    | rewrite pure_step;
      match goal with
      | |- context [match ?r with Ok _ => _ | Raise _ => _ end] =>
          destruct r; [|discriminate H]
      end ].
  injection H as <-.
  rewrite (lastly_last all' w Hne). reflexivity.
Qed.

(** One record whose reading raises: the exception ends the load with a
    stage already placed for the record, its leading fields set. *)
Lemma load_stage_fails (stage_data : json) (e : exn) (w : MainWindow) :
  read_fields stage_data = Raise e ->
  exists F,
    load_stage ui stage_data w
    = (Raise e,
       lastly (if Z.of_nat (length (stages w)) >=? 8 then stages w
               else update_stage_labels (stages w ++ [new_stage ui])) w F).
Proof.
  intros H. unfold read_fields in H. unfold load_stage.
  unfold bind at 1. rewrite add_stage_eq.
  pose proof (after_add_not_empty (stages w)) as Hne.
  set (all' := if Z.of_nat (length (stages w)) >=? 8 then stages w
               else update_stage_labels (stages w ++ [new_stage ui])) in *.
  rewrite (lastly_start all' w).
  repeat match type of H with
         | context [match ?r with Ok _ => _ | Raise _ => _ end] =>
             let E := fresh "E" in destruct r eqn:E
         end;
    try discriminate H; injection H as ->;
    repeat first
      [ rewrite (lastly_step all' w Hne)
      | rewrite pure_step;
        try match goal with
            | E : ?r = _ |- context [match ?r with Ok _ => _ | Raise _ => _ end] =>
                rewrite E
            end;
        cbv beta iota ];
    eexists; reflexivity.
Qed.

Lemma remove_stage_eq (w : MainWindow) :
  remove_stage w
  = (Ok tt, with_stages (update_stage_labels (removelast (stages w))) w).
Proof.
  unfold remove_stage, bind, gets, modify, ret.
  destruct (stages w) eqn:E; [|reflexivity].
  change (update_stage_labels (removelast [])) with (@nil StageWidget).
  rewrite <- E. now rewrite with_stages_same.
Qed.

Lemma length_removelast {A} (l : list A) :
  length (removelast l) = (length l - 1)%nat.
Proof. rewrite removelast_firstn_len, length_firstn. lia. Qed.

(** The [while self.stages] loop empties the list. *)
Lemma remove_all (passes : list StageWidget) : forall w,
  (length (stages w) <= length passes)%nat ->
  for_each passes (fun _ => remove_stage) w = (Ok tt, with_stages [] w).
Proof.
  induction passes as [|p passes IH]; intros w Hlen; simpl in *.
  - destruct (stages w) eqn:E; [|simpl in Hlen; lia].
    unfold ret. rewrite <- E. now rewrite with_stages_same.
  - unfold bind. rewrite remove_stage_eq. rewrite IH.
    + now rewrite with_stages_twice.
    + rewrite stages_with_stages, length_update_stage_labels, length_removelast.
      lia.
Qed.

Lemma load_records_ok (records : list json) : forall fields w,
  map read_fields records = map Ok fields ->
  for_each records (load_stage ui) w
  = (Ok tt, with_stages (fold_left (load_one ui) fields (stages w)) w).
Proof.
  induction records as [|r records IH]; intros [|f fields] w H;
    try discriminate H; simpl.
  - unfold ret. now rewrite with_stages_same.
  - simpl in H. injection H as Hr Hrest.
    unfold bind. rewrite (load_stage_ok r f w Hr).
    rewrite (IH fields _ Hrest), stages_with_stages, with_stages_twice.
    reflexivity.
Qed.

Lemma load_records_fail (good : list json) (bad : json) (rest : list json)
  (e : exn) : forall fields w,
  map read_fields good = map Ok fields ->
  read_fields bad = Raise e ->
  exists F,
    for_each (good ++ bad :: rest) (load_stage ui) w
    = (Raise e,
       let before := fold_left (load_one ui) fields (stages w) in
       lastly (if Z.of_nat (length before) >=? 8 then before
               else update_stage_labels (before ++ [new_stage ui])) w F).
Proof.
  induction good as [|r good IH]; intros [|f fields] w H Hbad;
    try discriminate H; simpl.
  - destruct (load_stage_fails bad e w Hbad) as (F & E).
    exists F. unfold bind. now rewrite E.
  - simpl in H. injection H as Hr Hrest.
    unfold bind. rewrite (load_stage_ok r f w Hr).
    destruct (IH fields (with_stages (load_one ui (stages w) f) w) Hrest Hbad)
      as (F & E).
    exists F. rewrite E. rewrite stages_with_stages. cbv zeta.
    unfold lastly. now rewrite with_stages_twice.
Qed.

Lemma length_load_one (all : list StageWidget) (f : StageFields) :
  length (load_one ui all f)
  = if Z.of_nat (length all) >=? 8 then length all else S (length all).
Proof.
  unfold load_one. rewrite length_update_nth.
  destruct (Z.of_nat (length all) >=? 8); [reflexivity|].
  rewrite length_update_stage_labels, length_app. simpl. lia.
Qed.

Lemma length_fold_load_one (fields : list StageFields) : forall all,
  (length all <= 8)%nat ->
  length (fold_left (load_one ui) fields all)
  = Nat.min 8 (length all + length fields).
Proof.
  induction fields as [|f fields IH]; intros all H; cbn [fold_left length].
  - lia.
  - pose proof (length_load_one all f) as L.
    destruct (Z.geb_spec (Z.of_nat (length all)) 8);
      rewrite IH by lia; rewrite L; lia.
Qed.

(** *** One stage per record, in file order *)

Lemma enumerate_number_from {A} (l : list A) : enumerate l = number_from 0 l.
Proof.
  unfold enumerate, py_range, number_from.
  rewrite Z.sub_0_r, Nat2Z.id. reflexivity.
Qed.

Lemma number_from_cons {A} (a : nat) (x : A) (l : list A) :
  number_from a (x :: l) = (Z.of_nat a, x) :: number_from (S a) l.
Proof. reflexivity. Qed.

Lemma number_from_snoc {A} (l : list A) (x : A) : forall a,
  number_from a (l ++ [x])
  = number_from a l ++ [(Z.of_nat (a + length l), x)].
Proof.
  induction l as [|y l IH]; intros a.
  - simpl. unfold number_from. simpl. now rewrite Nat.add_0_r.
  - rewrite <- app_comm_cons, !number_from_cons, IH. simpl.
    now rewrite Nat.add_succ_r.
Qed.

Lemma length_number_from {A} (l : list A) (a : nat) :
  length (number_from a l) = length l.
Proof.
  unfold number_from. rewrite length_combine, length_map, length_seq.
  apply Nat.min_id.
Qed.

Lemma update_flow_spinbox_number (n : Z) (s : StageWidget) :
  with_stage_number n (update_flow_spinbox ui s)
  = update_flow_spinbox ui (with_stage_number n s).
Proof.
  destruct s as [t r h q mx sf rt en sn]. unfold update_flow_spinbox.
  cbn [with_stage_number range_text flow_rate].
  destruct (Py.split rt) as [|a [|b [|c l]]]; try reflexivity.
  destruct (Py.float a); reflexivity.
Qed.

Lemma set_current_text_number (text : string) (n : Z) (s : StageWidget) :
  with_stage_number n (set_current_text ui text s)
  = set_current_text ui text (with_stage_number n s).
Proof.
  unfold set_current_text.
  replace (range_text (with_stage_number n s)) with (range_text s)
    by now destruct s.
  destruct (_ && _); [|reflexivity].
  rewrite update_flow_spinbox_number. now destruct s.
Qed.

Lemma filled_number (f : StageFields) (n : Z) (s : StageWidget) :
  with_stage_number n (filled ui f s) = filled ui f (with_stage_number n s).
Proof.
  unfold filled. cbv zeta.
  replace (with_temperature (spin_temperature ui (f_temperature f))
             (with_stage_number n s))
    with (with_stage_number n
            (with_temperature (spin_temperature ui (f_temperature f)) s))
    by now destruct s.
  set (s1 := with_temperature _ s).
  replace (with_ramp_time (spin_ramp_time ui (f_ramp_time f))
             (with_stage_number n s1))
    with (with_stage_number n
            (with_ramp_time (spin_ramp_time ui (f_ramp_time f)) s1))
    by now destruct s1.
  set (s2 := with_ramp_time _ s1).
  replace (with_hold_time (spin_hold_time ui (f_hold_time f))
             (with_stage_number n s2))
    with (with_stage_number n
            (with_hold_time (spin_hold_time ui (f_hold_time f)) s2))
    by now destruct s2.
  set (s3 := with_hold_time _ s2).
  rewrite <- set_current_text_number, <- update_flow_spinbox_number.
  set (s4 := update_flow_spinbox ui _).
  now destruct s4.
Qed.

Lemma update_nth_last {A} (F : A -> A) (l : list A) (x : A) :
  update_nth (length (l ++ [x]) - 1) F (l ++ [x]) = l ++ [F x].
Proof.
  rewrite length_app. simpl. replace (length l + 1 - 1)%nat with (length l) by lia.
  induction l as [|y l IH]; simpl; [reflexivity|]. now rewrite IH.
Qed.

(** Renumbering stages that carry their numbers, plus a new last one, only
    numbers the new one. *)
Lemma relabel_snoc (fields : list StageFields) (x : StageWidget) : forall a,
  map (fun ix => with_stage_number (fst ix + 1) (snd ix))
    (number_from a
       (map (fun ix => filled ui (snd ix)
                         (with_stage_number (fst ix + 1) (new_stage ui)))
          (number_from a fields) ++ [x]))
  = map (fun ix => filled ui (snd ix)
                     (with_stage_number (fst ix + 1) (new_stage ui)))
      (number_from a fields)
    ++ [with_stage_number (Z.of_nat (a + length fields) + 1) x].
Proof.
  induction fields as [|f fields IH]; intros a.
  - simpl. unfold number_from. simpl. now rewrite Nat.add_0_r.
  - rewrite number_from_cons. cbn [map fst snd].
    rewrite <- app_comm_cons, number_from_cons. cbn [map fst snd].
    rewrite IH, filled_number. cbn [length]. rewrite Nat.add_succ_r.
    f_equal. now destruct (new_stage ui).
Qed.

Lemma load_one_in_order (fields : list StageFields) (f : StageFields) :
  (length fields < 8)%nat ->
  load_one ui (one_per_record ui fields) f = one_per_record ui (fields ++ [f]).
Proof.
  intros H. unfold load_one, one_per_record.
  rewrite !enumerate_number_from, length_map, length_number_from.
  destruct (Z.geb_spec (Z.of_nat (length fields)) 8); [lia|].
  unfold update_stage_labels. rewrite enumerate_number_from, relabel_snoc.
  rewrite update_nth_last, number_from_snoc, map_app. reflexivity.
Qed.

Lemma loaded_in_order (fields : list StageFields) :
  (length fields <= 8)%nat -> loaded ui fields = one_per_record ui fields.
Proof.
  unfold loaded.
  assert (G : forall rest done,
            (length done + length rest <= 8)%nat ->
            fold_left (load_one ui) rest (one_per_record ui done)
            = one_per_record ui (done ++ rest)).
  { induction rest as [|f rest IH]; intros done H; simpl.
    - now rewrite app_nil_r.
    - simpl in H. rewrite load_one_in_order by lia.
      rewrite IH by (rewrite length_app; simpl; lia).
      now rewrite <- app_assoc. }
  intros H. exact (G fields [] H).
Qed.

(** *** The limit of eight stages *)

Lemma at_most_eight_refl (a : MainWindow) : at_most_eight a a.
Proof. unfold at_most_eight. tauto. Qed.

Lemma at_most_eight_trans (a b c : MainWindow) :
  at_most_eight a b -> at_most_eight b c -> at_most_eight a c.
Proof. unfold at_most_eight. tauto. Qed.

Lemma add_stage_at_most_eight : stable at_most_eight (add_stage ui).
Proof.
  intros w H. rewrite add_stage_eq. cbn [snd]. rewrite stages_with_stages.
  destruct (Z.geb_spec (Z.of_nat (length (stages w))) 8); [exact H|].
  rewrite length_update_stage_labels, length_app. simpl. lia.
Qed.

Lemma remove_stage_at_most_eight : stable at_most_eight remove_stage.
Proof.
  intros w H. rewrite remove_stage_eq. cbn [snd].
  rewrite stages_with_stages, length_update_stage_labels, length_removelast.
  lia.
Qed.

Lemma on_last_stage_at_most_eight (f : StageWidget -> StageWidget) :
  stable at_most_eight (on_last_stage f).
Proof.
  intros w H. destruct (stages w) eqn:E.
  - unfold on_last_stage, bind, gets. rewrite E. unfold raise. cbn [snd].
    rewrite E. exact H.
  - rewrite on_last_stage_eq by (rewrite E; discriminate).
    cbn [snd]. rewrite stages_with_stages, length_update_nth, E. exact H.
Qed.

Lemma load_recipe_at_most_eight (filename : string) (file : result json) :
  stable at_most_eight (load_recipe ui filename file).
Proof.
  pose proof add_stage_at_most_eight as Ha.
  pose proof remove_stage_at_most_eight as Hr.
  pose proof on_last_stage_at_most_eight as Hl.
  unfold load_recipe, load_stage.
  repeat first
    [ apply Ha | apply Hr | apply Hl
    | stable_step at_most_eight_refl at_most_eight_trans ];
    unfold at_most_eight; cbn; tauto.
Qed.

Lemma load_recipe_file (filename : string) (records : list json) (w : MainWindow) :
  filename <> EmptyString ->
  load_recipe ui filename (recipe_file records) w
  = match for_each records (load_stage ui) (with_stages [] w) with
    | (Ok _, w') =>
        (Ok tt,
         with_console (console w' ++ [Print ("Recipe loaded from " ++ filename)]) w')
    | (Raise e, w') => (Raise e, w')
    end.
Proof.
  intros Hname. unfold load_recipe, recipe_file.
  destruct (String.eqb_spec filename "") as [E|_]; [contradiction|].
  rewrite pure_step. unfold bind at 1, gets at 1. cbv beta iota.
  unfold bind at 1. rewrite remove_all by lia.
  rewrite pure_step. cbn [json_get_stages dict_get String.eqb Ascii.eqb Bool.eqb].
  cbv beta iota. rewrite pure_step. cbn [json_iter]. cbv beta iota.
  unfold bind, log, modify.
  destruct (for_each records (load_stage ui) (with_stages [] w)) as [[[]|e] w'];
    reflexivity.
Qed.


End LoadRecipe.


